(** * EvalSavedModel export: a shallow embedding of
    [tensorflow_model_analysis/eval_saved_model/export.py].

    The development has three layers:
    - [PosixPath]: the two [os.path] functions that [_get_temp_export_dir]
      relies on, written out on strings;
    - the data model of the exporter (tensors, tensor-or-dict values,
      receivers, estimators) and a small state-and-exception monad over the
      graph's metadata collections and a trace of the calls made to
      collaborators;
    - the functions of [export.py] themselves, followed by the properties. *)

From Stdlib Require Import Ascii ZArith.
From Stdlib Require QArith_base.
From stdpp Require Import gmap strings list fin_maps.

(* ===================================================================== *)
(** * POSIX path functions used by the exporter *)
(* ===================================================================== *)

Module PosixPath.

(** The separator of [posixpath]. *)
Definition sep : ascii := "/"%char.

Definition is_sep (c : ascii) : bool := bool_decide (c = sep).

(** [p.rfind('/') + 1]: one past the last separator, [0] when there is none. *)
Fixpoint rfind_sep_succ (p : string) : nat :=
  match p with
  | "" => 0
  | String c r =>
      match rfind_sep_succ r with
      | 0 => if is_sep c then 1 else 0
      | S k => S (S k)
      end
  end.

(** The slices [p[:i]] and [p[i:]]. *)
Fixpoint slice_to (i : nat) (p : string) : string :=
  match i, p with
  | S k, String c r => String c (slice_to k r)
  | _, _ => ""
  end.

Fixpoint slice_from (i : nat) (p : string) : string :=
  match i, p with
  | S k, String _ r => slice_from k r
  | _, _ => p
  end.

(** [head == sep * len(head)]. *)
Fixpoint all_sep (s : string) : bool :=
  match s with
  | "" => true
  | String c r => is_sep c && all_sep r
  end.

(** ['/' in s]. *)
Fixpoint has_sep (s : string) : bool :=
  match s with
  | "" => false
  | String c r => is_sep c || has_sep r
  end.

(** [s.rstrip('/')]. *)
Fixpoint rstrip_sep (s : string) : string :=
  match s with
  | "" => ""
  | String c r =>
      match rstrip_sep r with
      | "" => if is_sep c then "" else String c ""
      | r' => String c r'
      end
  end.

(** [s.startswith('/')] and [s.endswith('/')]. *)
Definition startswith_sep (s : string) : bool :=
  match s with
  | String c _ => is_sep c
  | "" => false
  end.

Fixpoint endswith_sep (s : string) : bool :=
  match s with
  | "" => false
  | String c "" => is_sep c
  | String _ r => endswith_sep r
  end.

Definition nonempty (s : string) : bool :=
  match s with "" => false | _ => true end.

(** [posixpath.split]:
<<
    i = p.rfind(sep) + 1
    head, tail = p[:i], p[i:]
    if head and head != sep*len(head):
        head = head.rstrip(sep)
    return head, tail
>> *)
Definition split (p : string) : string * string :=
  let i := rfind_sep_succ p in
  let head := slice_to i p in
  let tail := slice_from i p in
  let head := if nonempty head && negb (all_sep head)
              then rstrip_sep head else head in
  (head, tail).

(** [posixpath.join] with one component:
<<
    if b.startswith(sep):   path = b
    elif not path or path.endswith(sep):   path += b
    else:   path += sep + b
>> *)
Definition join (a b : string) : string :=
  if startswith_sep b then b
  else if negb (nonempty a) || endswith_sep a then a +:+ b
  else a +:+ String sep b.

(** A head as [split] returns it: all separators (possibly empty), or not
    ending with one. *)
Definition normal_head (h : string) : Prop :=
  all_sep h = true ∨ endswith_sep h = false.

End PosixPath.

(** [_get_temp_export_dir] (export.py, lines 58-71).  [compat.as_bytes]
    leaves a byte string as it is, and ['temp-{}'.format(basename)] is the
    concatenation. *)
Definition _get_temp_export_dir (timestamped_export_dir : string) : string :=
  let '(dirname, basename) := PosixPath.split timestamped_export_dir in
  let temp_export_dir := PosixPath.join dirname ("temp-" +:+ basename) in
  temp_export_dir.

(* ===================================================================== *)
(** * Data model *)
(* ===================================================================== *)

(** Graph nodes.  Only the constructors the exporter itself applies are
    distinguished; every other node built by user code is a [GraphNode]. *)
Inductive tensor : Type :=
| Placeholder (name : string)                     (* tf.placeholder *)
| ParsedFeature (serialized : tensor) (key : string)  (* tf.parse_example *)
| Identity (input : tensor)                       (* tf.identity *)
| Constant (value : QArith_base.Q)                (* tf.constant *)
| GraphNode (name : string).

(** [types.TensorTypeMaybeDict]: a tensor, or a dict of string to tensor.
    A dict is kept as its items in iteration order. *)
Inductive TensorTypeMaybeDict : Type :=
| Tensor (t : tensor)
| Dict (items : list (string * tensor)).

(** [isinstance(v, dict)]. *)
Definition isinstance_dict (v : TensorTypeMaybeDict) : bool :=
  match v with Dict _ => true | Tensor _ => false end.

(** [d[key]] on the items of a dict. *)
Fixpoint dict_get {V : Type} (key : string) (d : list (string * V)) : option V :=
  match d with
  | [] => None
  | (k, v) :: rest => if String.eqb k key then Some v else dict_get key rest
  end.

Inductive exception : Type :=
| ValueError (msg : string)
| KeyError (key : string)
| TypeError (msg : string)
| AttributeError (msg : string)
| UserError (msg : string).        (* anything raised by user callbacks *)

Inductive outcome (A : Type) : Type :=
| Returned (a : A)
| Raised (e : exception).
Arguments Returned {A} a.
Arguments Raised {A} e.

(** [EvalInputReceiver] (export.py, lines 38-53). *)
Record EvalInputReceiver : Type := {
  features : TensorTypeMaybeDict;
  receiver_tensors : TensorTypeMaybeDict;
  labels : TensorTypeMaybeDict
}.

(** [tf.estimator.ModeKeys]. *)
Inductive ModeKeys : Type := TRAIN | EVAL | PREDICT.

Inductive Saver : Type :=
| ScaffoldSaver (name : string)       (* a saver supplied by the model *)
| NewSaver (sharded : bool).          (* tf.train.Saver(sharded=...) *)

Inductive operation : Type :=
| UserOp (name : string)
| default_local_init_op (public_name : bool).

Record Scaffold : Type := {
  saver : option Saver;
  local_init_op : option operation
}.

Definition metric_ops : Type := list (string * (tensor * tensor)).

(** [tf.estimator.EstimatorSpec], the fields the exporter reads or sets. *)
Record EstimatorSpec : Type := {
  loss : tensor;
  mode : ModeKeys;
  predictions : TensorTypeMaybeDict;
  eval_metric_ops : metric_ops;
  scaffold : option Scaffold
}.

(** [tf.contrib.learn.ModelFnOps], the result of a contrib [model_fn]. *)
Record ModelFnOps : Type := {
  ops_mode : ModeKeys;
  ops_loss : option tensor;
  ops_predictions : TensorTypeMaybeDict;
  ops_eval_metric_ops : metric_ops;
  ops_scaffold : option Scaffold
}.

(** What a [model_fn] hands back is used by attribute name only. *)
Inductive model_fn_result : Type :=
| AnEstimatorSpec (s : EstimatorSpec)
| SomeModelFnOps (m : ModelFnOps).

Definition attr_predictions (r : model_fn_result) : TensorTypeMaybeDict :=
  match r with
  | AnEstimatorSpec s => predictions s
  | SomeModelFnOps m => ops_predictions m
  end.

Definition attr_eval_metric_ops (r : model_fn_result) : metric_ops :=
  match r with
  | AnEstimatorSpec s => eval_metric_ops s
  | SomeModelFnOps m => ops_eval_metric_ops m
  end.

Definition attr_scaffold (r : model_fn_result) : option Scaffold :=
  match r with
  | AnEstimatorSpec s => scaffold s
  | SomeModelFnOps m => ops_scaffold m
  end.

Record ConfigProto : Type := { allow_soft_placement : bool }.

Record RunConfig : Type := {
  tf_random_seed : option Z;
  session_config : option ConfigProto
}.

(** The class of the object passed as [estimator]: the core
    [tf.estimator.Estimator] (or a subclass), a contrib estimator, or any
    other object that happens to have the attributes used. *)
Inductive estimator_class : Type :=
| CoreEstimator
| ContribEstimator
| OtherClass (name : string).

Record Estimator : Type := {
  class_of : estimator_class;
  model_fn : TensorTypeMaybeDict -> TensorTypeMaybeDict -> ModeKeys ->
             RunConfig -> outcome model_fn_result;
  config : RunConfig;
  model_dir : string
}.

(** [isinstance(estimator, tf.estimator.Estimator)]. *)
Definition isinstance_Estimator (estimator : Estimator) : bool :=
  match class_of estimator with
  | CoreEstimator => true
  | _ => false
  end.

(** The same object seen as an instance of another class. *)
Definition with_class (c : estimator_class) (estimator : Estimator) : Estimator :=
  {| class_of := c;
     model_fn := model_fn estimator;
     config := config estimator;
     model_dir := model_dir estimator |}.

Inductive feature_config : Type := FixedLenFeature | VarLenFeature.

(** ** Constants of the sibling modules *)

(** The names below stand for [encoding.py] and [constants.py], which are
    not among the sources.  Section 6 of the spec lists the buckets
    [tfma_version], [<predictions|labels|features>/{key,node}],
    [metrics/{key,value_op,update_op}] and [input_example]; the algorithm of
    section 4.5 gives the default keys and the tag. *)
Module encoding.

(** Modelled from the spec: the bucket of the version marker. *)
Definition TFMA_VERSION_COLLECTION : string := "tfma_version".

(** Modelled from the spec: the prefix of the metrics buckets. *)
Definition METRICS_COLLECTION : string := "metrics".

(** Modelled from the spec: the prefix of the predictions buckets. *)
Definition PREDICTIONS_COLLECTION : string := "predictions".

(** Modelled from the spec: the bucket of the input placeholder. *)
Definition INPUT_EXAMPLE_COLLECTION : string := "input_example".

(** Modelled from the spec: the prefix of the labels buckets. *)
Definition LABELS_COLLECTION : string := "labels".

(** Modelled from the spec: the prefix of the features buckets. *)
Definition FEATURES_COLLECTION : string := "features".

(** Modelled from the spec: the suffix of a bucket of encoded keys. *)
Definition KEY_SUFFIX : string := "key".

(** Modelled from the spec: the suffix of a bucket of encoded nodes. *)
Definition NODE_SUFFIX : string := "node".

(** Modelled from the spec: the suffix of the bucket of metric value ops. *)
Definition VALUE_OP_SUFFIX : string := "value_op".

(** Modelled from the spec: the suffix of the bucket of metric update ops. *)
Definition UPDATE_OP_SUFFIX : string := "update_op".

(** Modelled from the spec: the key given to a bare predictions tensor. *)
Definition DEFAULT_PREDICTIONS_DICT_KEY : string := "predictions".

(** Modelled from the spec: the key given to a bare labels tensor. *)
Definition DEFAULT_LABELS_DICT_KEY : string := "labels".

End encoding.

Module constants.

(** Modelled from the spec: the fixed tag the graph is saved under. *)
Definition EVAL_SAVED_MODEL_TAG : string := "eval".

(** The graph key under which TensorFlow collects asset file paths. *)
Definition ASSET_FILEPATHS : string := "asset_filepaths".

(** The name of the binary graph file a [SavedModelBuilder] writes. *)
Definition SAVED_MODEL_FILENAME_PB : string := "saved_model.pb".

End constants.

(** Modelled from the spec: [util.wrap_tensor_or_dict_of_tensors_in_identity]
    of [util.py], which is not among the sources.  Section 4.2: a bare tensor
    becomes a new pass-through node wrapping it; a mapping has the same wrap
    applied to every entry, with identical keys. *)
Definition wrap_tensor_or_dict_of_tensors_in_identity
    (v : TensorTypeMaybeDict) : TensorTypeMaybeDict :=
  match v with
  | Tensor t => Tensor (Identity t)
  | Dict d => Dict (map (fun kv => (fst kv, Identity (snd kv))) d)
  end.

(** The collaborators that are not part of [export.py]: the encoders and
    the version string of the sibling modules, whose results are opaque to
    the exporter, and the TensorFlow services the exporter calls. *)
Class Collaborators : Type := {
  bytes : Type;                                  (* what a collection holds *)
  encode_key : string -> bytes;                  (* encoding.encode_key *)
  encode_tensor_node : tensor -> bytes;          (* encoding.encode_tensor_node *)
  VERSION_STRING : bytes;                        (* version.VERSION_STRING *)
  latest_checkpoint : string -> option string;   (* tf.train.latest_checkpoint *)
  get_timestamped_dir : string -> string;        (* estimator_util.get_timestamped_dir *)
  variables_files : list string;   (* what the builder writes below its directory *)
  scaffold_has_default_local_init_op : bool;     (* hasattr(tf.train.Scaffold, ...) *)
  (* tf.parse_example: the dict of parsed tensors, as its items in the
     dict's own iteration order, or the error it raises *)
  parse_example : tensor -> list (string * feature_config) ->
                  outcome (list (string * tensor))
}.

Section Exporter.

Context `{env : Collaborators}.

(* ===================================================================== *)
(** * The world the exporter acts on *)
(* ===================================================================== *)

(** The calls made to collaborators, in the order they happen. *)
Inductive event : Type :=
| GraphOpened
| ReceiverFnCalled
| GlobalStepCreated
| RandomSeedSet (seed : option Z)
| ModelFnCalled (feats labs : TensorTypeMaybeDict) (m : ModeKeys)
| SessionOpened (cfg : ConfigProto)
| CheckpointRestored (s : Saver) (path : string)
| DirCreated (path : string)
| MetaGraphAdded (tags : list string) (assets : list bytes) (init_op : operation)
| FileWritten (path : string)
| Renamed (src dst : string)
| SessionClosed.

(** The metadata collections of the graph being exported (a dict from
    collection name to the list of values added, as in [tf.Graph]), and the
    trace of calls.  The collections hold what this module adds through
    [tf.add_to_collection]; what the callbacks and TensorFlow itself put in
    collections of their own (the global step among them) is not tracked. *)
Record world : Type := {
  collections : gmap string (list bytes);
  trace : list event
}.

Definition exec (A : Type) : Type := world -> outcome A * world.

#[global] Instance exec_ret : MRet exec := fun A a w => (Returned a, w).

#[global] Instance exec_bind : MBind exec := fun A B f c w =>
  match c w with
  | (Returned a, w') => f a w'
  | (Raised e, w') => (Raised e, w')
  end.

#[global] Instance exec_throw : MThrow exception exec :=
  fun A e w => (Raised e, w).

(** A call is appended to the trace. *)
Definition record (e : event) (w : world) : world :=
  {| collections := collections w; trace := trace w ++ [e] |}.

Definition emit (e : event) : exec unit := fun w => (Returned tt, record e w).

(** [for x in xs: body(x)]. *)
Fixpoint for_each {A : Type} (xs : list A) (body : A -> exec unit) : exec unit :=
  match xs with
  | [] => mret tt
  | x :: rest => body x ;; for_each rest body
  end.

(** [with tf.Graph().as_default() as g]: the collections start empty. *)
Definition fresh_graph (w : world) : world :=
  {| collections := ∅; trace := trace w ++ [GraphOpened] |}.

Definition graph_as_default : exec unit := fun w => (Returned tt, fresh_graph w).

(** Reading a collection of the graph: the list added so far, empty when
    nothing was added under that name. *)
Definition collection (w : world) (name : string) : list bytes :=
  default [] (collections w !! name).

(** [tf.get_collection(name)]. *)
Definition get_collection (name : string) : exec (list bytes) := fun w =>
  (Returned (collection w name), w).

(** [tf.add_to_collection(name, value)]: append to the named list. *)
Definition append_to (name : string) (value : bytes) (w : world) : world :=
  {| collections := <[name := collection w name ++ [value]]> (collections w);
     trace := trace w |}.

Definition add_to_collection (name : string) (value : bytes) : exec unit :=
  fun w => (Returned tt, append_to name value w).

(** ['%s/%s' % (a, b)]. *)
Definition slash (a b : string) : string := a +:+ "/" +:+ b.

(** A Python expression that returns or raises, as a step of [exec]. *)
Definition lift {A : Type} (r : outcome A) : exec A :=
  match r with
  | Returned a => mret a
  | Raised x => mthrow x
  end.

(** [v.items()]: only a dict has the method. *)
Definition items_of (v : TensorTypeMaybeDict) : outcome (list (string * tensor)) :=
  match v with
  | Dict d => Returned d
  | Tensor _ => Raised (AttributeError "'Tensor' object has no attribute 'items'")
  end.

Definition items (v : TensorTypeMaybeDict) : exec (list (string * tensor)) :=
  lift (items_of v).

(** [v[key]]. *)
Definition subscript (v : TensorTypeMaybeDict) (key : string) : outcome tensor :=
  match v with
  | Dict d =>
      match dict_get key d with
      | Some t => Returned t
      | None => Raised (KeyError key)
      end
  | Tensor _ => Raised (TypeError "tensor indexed by a string")
  end.

Definition getitem (v : TensorTypeMaybeDict) (key : string) : exec tensor :=
  lift (subscript v key).

(** [not checkpoint_path]: [None] and the empty string are both falsy. *)
Definition py_not (s : option string) : bool :=
  match s with
  | None | Some "" => true
  | Some _ => false
  end.

(** Calling a user callback: the call is traced, what it raises propagates.
    The callback is given by its result; what it adds to the graph on the
    way is not tracked. *)
Definition call {A : Type} (e : event) (r : outcome A) : exec A :=
  emit e ;; lift r.

(** [_encode_and_add_to_node_collection] (lines 74-80). *)
Definition _encode_and_add_to_node_collection
    (collection_prefix key : string) (node : tensor) : exec unit :=
  add_to_collection (slash collection_prefix encoding.KEY_SUFFIX)
                    (encode_key key) ;;
  add_to_collection (slash collection_prefix encoding.NODE_SUFFIX)
                    (encode_tensor_node node).

(** The two-way dispatch on the estimator (lines 121-143).  Both branches
    call [estimator.model_fn] on the identity-wrapped features and labels;
    the [else] branch then builds an [EstimatorSpec] out of the result. *)
Definition adapt_model_fn (estimator : Estimator)
    (wrapped_features wrapped_labels : TensorTypeMaybeDict)
    : exec model_fn_result :=
  if isinstance_Estimator estimator then
    (* This is a core Estimator. *)
    estimator_spec ←
      call (ModelFnCalled wrapped_features wrapped_labels EVAL)
           (model_fn estimator wrapped_features wrapped_labels EVAL
                     (config estimator));
    mret estimator_spec
  else
    (* This is a contrib Estimator. *)
    model_fn_ops ←
      call (ModelFnCalled wrapped_features wrapped_labels EVAL)
           (model_fn estimator wrapped_features wrapped_labels EVAL
                     (config estimator));
    mret (AnEstimatorSpec
            {| loss := Constant (QArith_base.Qmake 0 1);
               mode := EVAL;
               predictions := attr_predictions model_fn_ops;
               eval_metric_ops := attr_eval_metric_ops model_fn_ops;
               scaffold := attr_scaffold model_fn_ops |}).

(** The normalisation written twice in the exporter (lines 164-166 for the
    predictions, lines 182-184 for the labels):
<<
    if not isinstance(x, dict):
      x = {DEFAULT_KEY: x}
>> *)
Definition to_mapping (default_key : string) (x : TensorTypeMaybeDict)
    : TensorTypeMaybeDict :=
  match x with
  | Dict _ => x
  | Tensor t => Dict [(default_key, t)]
  end.

(** The metric loop (lines 150-160). *)
Definition add_metric (entry : string * (tensor * tensor)) : exec unit :=
  let '(user_metric_key, (value_op, update_op)) := entry in
  add_to_collection (slash encoding.METRICS_COLLECTION encoding.KEY_SUFFIX)
                    (encode_key user_metric_key) ;;
  add_to_collection (slash encoding.METRICS_COLLECTION encoding.VALUE_OP_SUFFIX)
                    (encode_tensor_node value_op) ;;
  add_to_collection (slash encoding.METRICS_COLLECTION encoding.UPDATE_OP_SUFFIX)
                    (encode_tensor_node update_op).

(** The body of the loops over predictions, labels and features. *)
Definition add_node (collection : string) (entry : string * tensor) : exec unit :=
  let '(key, node) := entry in
  _encode_and_add_to_node_collection collection key node.

(** Lines 198-202: the checkpoint to restore from. *)
Definition resolve_checkpoint (estimator : Estimator)
    (checkpoint_path : option string) : exec string :=
  if py_not checkpoint_path then
    let checkpoint_path := latest_checkpoint (model_dir estimator) in
    if py_not checkpoint_path then
      mthrow (ValueError ("Could not find trained model at " +:+
                          model_dir estimator +:+ "."))
    else mret (default "" checkpoint_path)
  else mret (default "" checkpoint_path).

(** The [SavedModelBuilder] as the exporter uses it: the constructor makes
    the export directory, [add_meta_graph_and_variables] writes the variable
    files below it, [save(False)] writes the binary graph file below it.
    These calls, the restore and the rename are recorded as made: a failure
    inside TensorFlow (an unreadable checkpoint, a full disk, a rename onto
    an existing directory) is not modelled, so what is said of the calls
    after the checkpoint lookup is said of the runs that return. *)
Definition SavedModelBuilder (export_dir : string) : exec string :=
  emit (DirCreated export_dir) ;; mret export_dir.

Definition add_meta_graph_and_variables (builder : string)
    (tags : list string) (assets_collection : list bytes)
    (legacy_init_op : operation)
    : exec unit :=
  emit (MetaGraphAdded tags assets_collection legacy_init_op) ;;
  for_each variables_files (fun f => emit (FileWritten (slash builder f))).

Definition builder_save (builder : string) (as_text : bool) : exec unit :=
  emit (FileWritten (slash builder
          (if as_text then "saved_model.pbtxt"
           else constants.SAVED_MODEL_FILENAME_PB))).

(** [export_eval_savedmodel] (lines 83-240). *)
Definition export_eval_savedmodel
    (estimator : Estimator)
    (export_dir_base : string)
    (eval_input_receiver_fn : unit -> outcome EvalInputReceiver)
    (checkpoint_path : option string) : exec string :=
  graph_as_default ;;
  eval_input_receiver ← call ReceiverFnCalled (eval_input_receiver_fn tt);
  emit GlobalStepCreated ;;
  emit (RandomSeedSet (tf_random_seed (config estimator))) ;;

  let wrapped_features :=
    wrap_tensor_or_dict_of_tensors_in_identity (features eval_input_receiver) in
  let wrapped_labels :=
    wrap_tensor_or_dict_of_tensors_in_identity (labels eval_input_receiver) in

  estimator_spec ← adapt_model_fn estimator wrapped_features wrapped_labels;

  (* Write out exporter version. *)
  add_to_collection encoding.TFMA_VERSION_COLLECTION VERSION_STRING ;;

  (* Save metric using eval_metric_ops. *)
  for_each (attr_eval_metric_ops estimator_spec) add_metric ;;

  (* Save all prediction nodes. *)
  let predictions := attr_predictions estimator_spec in
  let predictions :=
    to_mapping encoding.DEFAULT_PREDICTIONS_DICT_KEY predictions in
  prediction_items ← items predictions;
  for_each prediction_items (add_node encoding.PREDICTIONS_COLLECTION) ;;

  (* Placeholder for input example to label graph. *)
  examples ← getitem (receiver_tensors eval_input_receiver) "examples";
  add_to_collection encoding.INPUT_EXAMPLE_COLLECTION
                    (encode_tensor_node examples) ;;

  (* Save all label nodes. *)
  let labels := labels eval_input_receiver in
  let labels := to_mapping encoding.DEFAULT_LABELS_DICT_KEY labels in
  label_items ← items labels;
  for_each label_items (add_node encoding.LABELS_COLLECTION) ;;

  (* Save features. *)
  feature_items ← items (features eval_input_receiver);
  for_each feature_items (add_node encoding.FEATURES_COLLECTION) ;;

  (* Export as normal *)
  checkpoint_path ← resolve_checkpoint estimator checkpoint_path;

  let export_dir := get_timestamped_dir export_dir_base in
  let temp_export_dir := _get_temp_export_dir export_dir in

  let session_config :=
    match session_config (config estimator) with
    | None => {| allow_soft_placement := true |}
    | Some c => c
    end in

  emit (SessionOpened session_config) ;;
  let saver_for_restore :=
    match attr_scaffold estimator_spec with
    | Some {| saver := Some s |} => s
    | _ => NewSaver true
    end in
  emit (CheckpointRestored saver_for_restore checkpoint_path) ;;

  let local_init_op :=
    match attr_scaffold estimator_spec with
    | Some {| local_init_op := Some op |} => op
    | _ => default_local_init_op scaffold_has_default_local_init_op
    end in

  (* Perform the export *)
  builder ← SavedModelBuilder temp_export_dir;
  assets ← get_collection constants.ASSET_FILEPATHS;
  add_meta_graph_and_variables builder [constants.EVAL_SAVED_MODEL_TAG]
                               assets local_init_op ;;
  builder_save builder false ;;

  emit (Renamed temp_export_dir export_dir) ;;
  emit SessionClosed ;;
  mret export_dir.

(** [build_parsing_eval_input_receiver_fn] (lines 243-271).  What
    [tf.parse_example] returns, in which order its dict iterates and when it
    raises is TensorFlow's business: it is the collaborator [parse_example]. *)
Definition build_parsing_eval_input_receiver_fn
    (feature_spec : list (string * feature_config)) (label_key : string)
    : unit -> outcome EvalInputReceiver :=
  fun _ =>
    let serialized_tf_example := Placeholder "input_example_tensor" in
    match parse_example serialized_tf_example feature_spec with
    | Raised e => Raised e
    | Returned features =>
        match dict_get label_key features with
        | Some label =>
            Returned {| features := Dict features;
                        receiver_tensors :=
                          Dict [("examples", serialized_tf_example)];
                        labels := Tensor label |}
        | None => Raised (KeyError label_key)
        end
    end.


(* ===================================================================== *)
(** * The file system as the trace acts on it *)
(* ===================================================================== *)

(** [p] is the directory [dir] itself or lies below it, read off the paths
    as they are written: [dir] is a path without a trailing separator, as
    [get_timestamped_dir] and [_get_temp_export_dir] give for a base and a
    non-empty last component.  The entries of a [dir] that ends with a
    separator are not counted. *)
Definition under (dir p : string) : Prop :=
  p = dir ∨ ∃ rest, p = dir +:+ "/" +:+ rest.

Fixpoint strip_prefix (pre s : string) : option string :=
  match pre, s with
  | "", _ => Some s
  | String a pre', String b s' =>
      if bool_decide (a = b) then strip_prefix pre' s' else None
  | String _ _, "" => None
  end.

(** Where a path ends up when the directory [src] is renamed to [dst]. *)
Definition moved (src dst p : string) : string :=
  match strip_prefix src p with
  | Some "" => dst
  | Some (String c rest) =>
      if PosixPath.is_sep c then dst +:+ String c rest else p
  | None => p
  end.

(** The set of paths that exist, stepped by one traced call. *)
Definition fs_step (fs : gset string) (e : event) : gset string :=
  match e with
  | DirCreated p | FileWritten p => {[ p ]} ∪ fs
  | Renamed src dst => set_map (moved src dst) fs
  | _ => fs
  end.

Definition fs_after (es : list event) (fs : gset string) : gset string :=
  foldl fs_step fs es.

(** Something exists at [dir] or below it. *)
Definition visible (fs : gset string) (dir : string) : Prop :=
  ∃ p, p ∈ fs ∧ under dir p.

(** A traced call that touches the file system only by creating or writing
    at or below [dir]. *)
Definition writes_only_under (dir : string) (e : event) : Prop :=
  match e with
  | DirCreated p | FileWritten p => under dir p
  | Renamed _ _ => False
  | _ => True
  end.

(** A traced call that creates, writes or moves something on disk. *)
Definition touches_fs (e : event) : bool :=
  match e with
  | DirCreated _ | FileWritten _ | Renamed _ _ => true
  | _ => false
  end.

(** [a] is traced before [b]. *)
Definition occurs_before (a b : event) (t : list event) : Prop :=
  ∃ t1 t2 t3, t = t1 ++ a :: t2 ++ b :: t3.

(** The world before anything has happened. *)
Definition initial_world : world := {| collections := ∅; trace := [] |}.

(* ===================================================================== *)
(** * What a run amounts to *)
(* ===================================================================== *)

(** The steps of the exporter as plain functions on the world; the facts
    below show that a run of [export_eval_savedmodel] is made of them. *)

Definition tag_node (collection_prefix : string) (w : world)
    (entry : string * tensor) : world :=
  append_to (slash collection_prefix encoding.NODE_SUFFIX)
            (encode_tensor_node (snd entry))
    (append_to (slash collection_prefix encoding.KEY_SUFFIX)
               (encode_key (fst entry)) w).

Definition tag_metric (w : world) (entry : string * (tensor * tensor)) : world :=
  append_to (slash encoding.METRICS_COLLECTION encoding.UPDATE_OP_SUFFIX)
            (encode_tensor_node (snd (snd entry)))
    (append_to (slash encoding.METRICS_COLLECTION encoding.VALUE_OP_SUFFIX)
               (encode_tensor_node (fst (snd entry)))
       (append_to (slash encoding.METRICS_COLLECTION encoding.KEY_SUFFIX)
                  (encode_key (fst entry)) w)).

(** The items of a value once it has been made a mapping. *)
Definition entries (default_key : string) (v : TensorTypeMaybeDict)
    : list (string * tensor) :=
  match v with
  | Dict d => d
  | Tensor t => [(default_key, t)]
  end.

(** What the dispatch of lines 121-143 makes of a model function's result. *)
Definition adapted (estimator : Estimator) (result : model_fn_result)
    : model_fn_result :=
  if isinstance_Estimator estimator then result
  else AnEstimatorSpec
         {| loss := Constant (QArith_base.Qmake 0 1);
            mode := EVAL;
            predictions := attr_predictions result;
            eval_metric_ops := attr_eval_metric_ops result;
            scaffold := attr_scaffold result |}.

Definition saver_for_restore (spec : model_fn_result) : Saver :=
  match attr_scaffold spec with
  | Some {| saver := Some s |} => s
  | _ => NewSaver true
  end.

Definition chosen_local_init_op (spec : model_fn_result) : operation :=
  match attr_scaffold spec with
  | Some {| local_init_op := Some op |} => op
  | _ => default_local_init_op scaffold_has_default_local_init_op
  end.

Definition chosen_session_config (estimator : Estimator) : ConfigProto :=
  match session_config (config estimator) with
  | None => {| allow_soft_placement := true |}
  | Some c => c
  end.

(** The calls of a run up to and including the model function. *)
Definition graph_calls (estimator : Estimator) (r : EvalInputReceiver)
    : list event :=
  [GraphOpened; ReceiverFnCalled; GlobalStepCreated;
   RandomSeedSet (tf_random_seed (config estimator));
   ModelFnCalled (wrap_tensor_or_dict_of_tensors_in_identity (features r))
                 (wrap_tensor_or_dict_of_tensors_in_identity (labels r)) EVAL].

(** The calls of lines 212-238: session, restore, and the builder's writes,
    all of them before the rename. *)
Definition save_calls (estimator : Estimator) (spec : model_fn_result)
    (checkpoint temp_export_dir : string) (assets : list bytes) : list event :=
  [SessionOpened (chosen_session_config estimator);
   CheckpointRestored (saver_for_restore spec) checkpoint;
   DirCreated temp_export_dir;
   MetaGraphAdded [constants.EVAL_SAVED_MODEL_TAG] assets
                  (chosen_local_init_op spec)]
  ++ map (fun f => FileWritten (slash temp_export_dir f)) variables_files
  ++ [FileWritten (slash temp_export_dir constants.SAVED_MODEL_FILENAME_PB)].

Definition record_all (es : list event) (w : world) : world :=
  {| collections := collections w; trace := trace w ++ es |}.

(** The world after lines 145-170: version, metrics, predictions. *)
Definition tag_model (spec : model_fn_result) (w : world) : world :=
  foldl (tag_node encoding.PREDICTIONS_COLLECTION)
    (foldl tag_metric
       (append_to encoding.TFMA_VERSION_COLLECTION VERSION_STRING w)
       (attr_eval_metric_ops spec))
    (entries encoding.DEFAULT_PREDICTIONS_DICT_KEY (attr_predictions spec)).

(** The world after lines 175-188: input example and labels. *)
Definition tag_inputs (examples : tensor) (r : EvalInputReceiver) (w : world)
    : world :=
  foldl (tag_node encoding.LABELS_COLLECTION)
    (append_to encoding.INPUT_EXAMPLE_COLLECTION (encode_tensor_node examples) w)
    (entries encoding.DEFAULT_LABELS_DICT_KEY (labels r)).

Definition no_checkpoint (estimator : Estimator) (checkpoint_path : option string)
    : bool :=
  py_not checkpoint_path && py_not (latest_checkpoint (model_dir estimator)).

Definition checkpoint_used (estimator : Estimator)
    (checkpoint_path : option string) : string :=
  if py_not checkpoint_path
  then default "" (latest_checkpoint (model_dir estimator))
  else default "" checkpoint_path.

(** The outcome and the final world of a run, case by case. *)
Definition export_summary
    (estimator : Estimator) (export_dir_base : string)
    (eval_input_receiver_fn : unit -> outcome EvalInputReceiver)
    (checkpoint_path : option string) (w : world) : outcome string * world :=
  let w := record ReceiverFnCalled (fresh_graph w) in
  match eval_input_receiver_fn tt with
  | Raised e => (Raised e, w)
  | Returned r =>
    let wf := wrap_tensor_or_dict_of_tensors_in_identity (features r) in
    let wl := wrap_tensor_or_dict_of_tensors_in_identity (labels r) in
    let w := record (ModelFnCalled wf wl EVAL)
               (record (RandomSeedSet (tf_random_seed (config estimator)))
                  (record GlobalStepCreated w)) in
    match model_fn estimator wf wl EVAL (config estimator) with
    | Raised e => (Raised e, w)
    | Returned result =>
      let spec := adapted estimator result in
      let w := tag_model spec w in
      match subscript (receiver_tensors r) "examples" with
      | Raised e => (Raised e, w)
      | Returned examples =>
        let w := tag_inputs examples r w in
        match items_of (features r) with
        | Raised e => (Raised e, w)
        | Returned feature_items =>
          let w := foldl (tag_node encoding.FEATURES_COLLECTION) w feature_items in
          if no_checkpoint estimator checkpoint_path then
            (Raised (ValueError ("Could not find trained model at " +:+
                                 model_dir estimator +:+ ".")), w)
          else
            let export_dir := get_timestamped_dir export_dir_base in
            let temp_export_dir := _get_temp_export_dir export_dir in
            (Returned export_dir,
             record_all
               (save_calls estimator spec
                  (checkpoint_used estimator checkpoint_path) temp_export_dir
                  (collection w constants.ASSET_FILEPATHS)
                ++ [Renamed temp_export_dir export_dir; SessionClosed]) w)
        end
      end
    end
  end.

(** The world once features, labels, predictions and metrics are tagged
    (after line 193). *)
Definition tagged (estimator : Estimator) (r : EvalInputReceiver)
    (result : model_fn_result) (examples : tensor)
    (feature_items : list (string * tensor)) (w : world) : world :=
  foldl (tag_node encoding.FEATURES_COLLECTION)
    (tag_inputs examples r
       (tag_model (adapted estimator result)
          (record_all (graph_calls estimator r)
             {| collections := ∅; trace := trace w |})))
    feature_items.

(** The run gets through lines 104-193: the receiver and the model
    function return, the receiver tensors hold ["examples"], and the
    features are a dict. *)
Definition graph_built (estimator : Estimator)
    (eval_input_receiver_fn : unit -> outcome EvalInputReceiver)
    (r : EvalInputReceiver) (result : model_fn_result) (examples : tensor)
    (feature_items : list (string * tensor)) : Prop :=
  eval_input_receiver_fn tt = Returned r ∧
  model_fn estimator
           (wrap_tensor_or_dict_of_tensors_in_identity (features r))
           (wrap_tensor_or_dict_of_tensors_in_identity (labels r))
           EVAL (config estimator) = Returned result ∧
  subscript (receiver_tensors r) "examples" = Returned examples ∧
  items_of (features r) = Returned feature_items.

(** The values a name holds among [values] registered under [target]. *)
Definition at_name (target : string) (values : list bytes) (name : string)
    : list bytes :=
  if decide (name = target) then values else [].

(** What a bucket of nodes holds once [entries_] have been registered. *)
Definition node_bucket (collection_prefix : string)
    (entries_ : list (string * tensor)) (name : string) : list bytes :=
  at_name (slash collection_prefix encoding.KEY_SUFFIX)
          (map (fun kv => encode_key (fst kv)) entries_) name
  ++ at_name (slash collection_prefix encoding.NODE_SUFFIX)
             (map (fun kv => encode_tensor_node (snd kv)) entries_) name.

Definition metric_bucket (ms : metric_ops) (name : string) : list bytes :=
  at_name (slash encoding.METRICS_COLLECTION encoding.KEY_SUFFIX)
          (map (fun m => encode_key (fst m)) ms) name
  ++ at_name (slash encoding.METRICS_COLLECTION encoding.VALUE_OP_SUFFIX)
             (map (fun m => encode_tensor_node (fst (snd m))) ms) name
  ++ at_name (slash encoding.METRICS_COLLECTION encoding.UPDATE_OP_SUFFIX)
             (map (fun m => encode_tensor_node (snd (snd m))) ms) name.

(** Everything a successful run has registered, by collection name. *)
Definition registered (spec : model_fn_result) (r : EvalInputReceiver)
    (examples : tensor) (feature_items : list (string * tensor))
    (name : string) : list bytes :=
  at_name encoding.TFMA_VERSION_COLLECTION [VERSION_STRING] name
  ++ metric_bucket (attr_eval_metric_ops spec) name
  ++ node_bucket encoding.PREDICTIONS_COLLECTION
       (entries encoding.DEFAULT_PREDICTIONS_DICT_KEY (attr_predictions spec)) name
  ++ at_name encoding.INPUT_EXAMPLE_COLLECTION [encode_tensor_node examples] name
  ++ node_bucket encoding.LABELS_COLLECTION
       (entries encoding.DEFAULT_LABELS_DICT_KEY (labels r)) name
  ++ node_bucket encoding.FEATURES_COLLECTION feature_items name.

End Exporter.

(* ===================================================================== *)
(** * The export strategy *)
(* ===================================================================== *)

Section Strategy.

Context `{env : Collaborators}.

(** The process that runs a strategy: the world of the exporter, and the
    calls made to the garbage collector of old exports, each with the base
    directory and the number of exports to keep ([None] keeps them all). *)
Record host : Type := {
  graph_world : world;
  collected : list (string * option nat)
}.

(** [saved_model_export_utils.garbage_collect_exports(export_dir_base,
    exports_to_keep)], a collaborator: the call is recorded. *)
Definition garbage_collect_exports (export_dir_base : string)
    (exports_to_keep : option nat) (h : host) : host :=
  {| graph_world := graph_world h;
     collected := collected h ++ [(export_dir_base, exports_to_keep)] |}.

(** [export_fn] (lines 293-305); [strip_default_attrs] is deleted on entry. *)
Definition export_fn
    (eval_input_receiver_fn : unit -> outcome EvalInputReceiver)
    (exports_to_keep : option nat)
    (estimator : Estimator) (export_dir_base : string)
    (checkpoint_path : option string) (strip_default_attrs : bool)
    (h : host) : outcome string * host :=
  match export_eval_savedmodel estimator export_dir_base
          eval_input_receiver_fn checkpoint_path (graph_world h) with
  | (Returned export_dir, w) =>
      (Returned export_dir,
       garbage_collect_exports export_dir_base exports_to_keep
         {| graph_world := w; collected := collected h |})
  | (Raised e, w) => (Raised e, {| graph_world := w; collected := collected h |})
  end.

(** [tf.contrib.learn.ExportStrategy], a name and an export function. *)
Record ExportStrategy : Type := {
  strategy_name : string;
  strategy_export_fn :
    Estimator -> string -> option string -> bool -> host -> outcome string * host
}.

(** The default of [exports_to_keep]. *)
Definition default_exports_to_keep : option nat := Some 5.

(** [make_export_strategy] (lines 274-308).  The name of the strategy is
    [constants.EVAL_SAVED_MODEL_EXPORT_NAME], which is not among the sources
    and is taken as an argument. *)
Definition make_export_strategy (EVAL_SAVED_MODEL_EXPORT_NAME : string)
    (eval_input_receiver_fn : unit -> outcome EvalInputReceiver)
    (exports_to_keep : option nat) : ExportStrategy :=
  {| strategy_name := EVAL_SAVED_MODEL_EXPORT_NAME;
     strategy_export_fn := export_fn eval_input_receiver_fn exports_to_keep |}.

(** The names of all the collections the exporter adds to. *)
Definition bucket_names : list string :=
  [encoding.TFMA_VERSION_COLLECTION;
   slash encoding.METRICS_COLLECTION encoding.KEY_SUFFIX;
   slash encoding.METRICS_COLLECTION encoding.VALUE_OP_SUFFIX;
   slash encoding.METRICS_COLLECTION encoding.UPDATE_OP_SUFFIX;
   slash encoding.PREDICTIONS_COLLECTION encoding.KEY_SUFFIX;
   slash encoding.PREDICTIONS_COLLECTION encoding.NODE_SUFFIX;
   encoding.INPUT_EXAMPLE_COLLECTION;
   slash encoding.LABELS_COLLECTION encoding.KEY_SUFFIX;
   slash encoding.LABELS_COLLECTION encoding.NODE_SUFFIX;
   slash encoding.FEATURES_COLLECTION encoding.KEY_SUFFIX;
   slash encoding.FEATURES_COLLECTION encoding.NODE_SUFFIX].

(** The writes of the builder below its directory. *)
Definition builder_writes (temp : string) : list event :=
  map (fun f => FileWritten (slash temp f)) variables_files
  ++ [FileWritten (slash temp constants.SAVED_MODEL_FILENAME_PB)].

End Strategy.

(* ===================================================================== *)
(** * Concrete inputs *)
(* ===================================================================== *)

Module Samples.

(** Collection entries that remember what was encoded, so that decoding is
    immediate. *)
Inductive payload : Type :=
| EncodedKey (k : string)
| EncodedNode (t : tensor)
| Text (s : string).

Definition decode_key (b : payload) : string :=
  match b with EncodedKey k => k | _ => "" end.

Definition decode_tensor_node (b : payload) : tensor :=
  match b with EncodedNode t => t | _ => GraphNode "" end.

(** A parser in the manner of [tf.parse_example]: it refuses an empty
    feature spec and returns one parsed tensor per key, sorted by key
    whatever the order of the spec. *)
Fixpoint insert_by_key {V : Type} (kv : string * V) (l : list (string * V))
    : list (string * V) :=
  match l with
  | [] => [kv]
  | x :: rest =>
      if String.leb (fst kv) (fst x) then kv :: l
      else x :: insert_by_key kv rest
  end.

Definition sort_by_key {V : Type} (l : list (string * V)) : list (string * V) :=
  foldr insert_by_key [] l.

Definition sorting_parse_example (serialized : tensor)
    (feature_spec : list (string * feature_config))
    : outcome (list (string * tensor)) :=
  match feature_spec with
  | [] => Raised (ValueError "Missing: features was empty.")
  | _ => Returned (map (fun kv => (fst kv, ParsedFeature serialized (fst kv)))
                       (sort_by_key feature_spec))
  end.

(** A model directory that holds a checkpoint, and one that does not. *)
Definition trained_dir : string := "/models/trained".
Definition empty_dir : string := "/models/empty".

#[local] Instance sample_env : Collaborators := {|
  bytes := payload;
  encode_key := EncodedKey;
  encode_tensor_node := EncodedNode;
  VERSION_STRING := Text "0.6.0";
  latest_checkpoint := fun dir =>
    if String.eqb dir trained_dir then Some "/models/trained/model.ckpt-100"
    else None;
  get_timestamped_dir := fun base => PosixPath.join base "1530000000";
  variables_files :=
    ["variables/variables.index"; "variables/variables.data-00000-of-00001"];
  scaffold_has_default_local_init_op := true;
  parse_example := sorting_parse_example
|}.

Definition sample_config : RunConfig :=
  {| tf_random_seed := Some 42%Z; session_config := None |}.

(** A model function with a single bare prediction tensor and one metric. *)
Definition bare_model_fn (f l : TensorTypeMaybeDict) (m : ModeKeys)
    (c : RunConfig) : outcome model_fn_result :=
  Returned (AnEstimatorSpec
    {| loss := GraphNode "loss";
       mode := m;
       predictions := Tensor (GraphNode "logits");
       eval_metric_ops := [("accuracy", (GraphNode "acc/value", GraphNode "acc/update"))];
       scaffold := None |}).

(** A model function in the contrib style, with two named predictions. *)
Definition contrib_model_fn (f l : TensorTypeMaybeDict) (m : ModeKeys)
    (c : RunConfig) : outcome model_fn_result :=
  Returned (SomeModelFnOps
    {| ops_mode := m;
       ops_loss := None;
       ops_predictions := Dict [("classes", GraphNode "classes");
                                ("probabilities", GraphNode "probabilities")];
       ops_eval_metric_ops :=
         [("auc", (GraphNode "auc/value", GraphNode "auc/update"));
          ("mean", (GraphNode "mean/value", GraphNode "mean/update"))];
       ops_scaffold := Some {| saver := Some (ScaffoldSaver "model_saver");
                               local_init_op := None |} |}).

Definition core_estimator : Estimator :=
  {| class_of := CoreEstimator; model_fn := bare_model_fn;
     config := sample_config; model_dir := trained_dir |}.

Definition contrib_estimator : Estimator :=
  {| class_of := ContribEstimator; model_fn := contrib_model_fn;
     config := sample_config; model_dir := trained_dir |}.

(** An object of an unrelated class that has the same attributes. *)
Definition unrelated_estimator : Estimator :=
  {| class_of := OtherClass "MyTrainer"; model_fn := contrib_model_fn;
     config := sample_config; model_dir := trained_dir |}.

(** A core estimator whose model directory holds no checkpoint. *)
Definition untrained_estimator : Estimator :=
  {| class_of := CoreEstimator; model_fn := bare_model_fn;
     config := sample_config; model_dir := empty_dir |}.

Definition sample_feature_spec : list (string * feature_config) :=
  [("f1", FixedLenFeature); ("label", FixedLenFeature)].

Definition sample_receiver_fn : unit -> outcome EvalInputReceiver :=
  build_parsing_eval_input_receiver_fn sample_feature_spec "label".

(** What that receiver function returns. *)
Definition serialized : tensor := Placeholder "input_example_tensor".

Definition sample_features : list (string * tensor) :=
  [("f1", ParsedFeature serialized "f1");
   ("label", ParsedFeature serialized "label")].

Definition sample_receiver : EvalInputReceiver :=
  {| features := Dict sample_features;
     receiver_tensors := Dict [("examples", serialized)];
     labels := Tensor (ParsedFeature serialized "label") |}.

(** What the two model functions return in evaluation mode. *)
Definition bare_result : model_fn_result :=
  AnEstimatorSpec
    {| loss := GraphNode "loss";
       mode := EVAL;
       predictions := Tensor (GraphNode "logits");
       eval_metric_ops := [("accuracy", (GraphNode "acc/value", GraphNode "acc/update"))];
       scaffold := None |}.

Definition contrib_ops : ModelFnOps :=
  {| ops_mode := EVAL;
     ops_loss := None;
     ops_predictions := Dict [("classes", GraphNode "classes");
                              ("probabilities", GraphNode "probabilities")];
     ops_eval_metric_ops :=
       [("auc", (GraphNode "auc/value", GraphNode "auc/update"));
        ("mean", (GraphNode "mean/value", GraphNode "mean/update"))];
     ops_scaffold := Some {| saver := Some (ScaffoldSaver "model_saver");
                             local_init_op := None |} |}.

(** A receiver function whose label key is missing from the feature spec. *)
Definition unlabelled_receiver_fn : unit -> outcome EvalInputReceiver :=
  build_parsing_eval_input_receiver_fn [("f1", FixedLenFeature)] "label".

(** A receiver whose features are a single tensor, as the docstring of
    [EvalInputReceiver] allows. *)
Definition tensor_features_receiver : EvalInputReceiver :=
  {| features := Tensor (GraphNode "image");
     receiver_tensors := Dict [("examples", serialized)];
     labels := Tensor (GraphNode "class") |}.

(** A receiver whose receiver tensors lack the "examples" key. *)
Definition no_examples_receiver : EvalInputReceiver :=
  {| features := Dict sample_features;
     receiver_tensors := Dict [("inputs", serialized)];
     labels := Dict [("class", GraphNode "class")] |}.

(** A model function that raises. *)
Definition failing_model_fn (f l : TensorTypeMaybeDict) (m : ModeKeys)
    (c : RunConfig) : outcome model_fn_result :=
  Raised (UserError "shape mismatch").

Definition failing_estimator : Estimator :=
  {| class_of := CoreEstimator; model_fn := failing_model_fn;
     config := sample_config; model_dir := trained_dir |}.

(** A host in which nothing has happened yet. *)
Definition initial_host : host (env := sample_env) :=
  {| graph_world := initial_world; collected := [] |}.

End Samples.

(* ===================================================================== *)
(** * Properties *)
(* ===================================================================== *)

(** ** Strings *)

Section StringFacts.

Import PosixPath.

#[local] Arguments String.append !_ _ : simpl nomatch.

Lemma str_app_nil_r (s : string) : s +:+ "" = s.
Proof. induction s as [|c s IH]; simpl; congruence. Qed.

Lemma str_app_assoc (a b c : string) : (a +:+ b) +:+ c = a +:+ b +:+ c.
Proof. induction a as [|x a IH]; simpl; congruence. Qed.

Lemma str_app_length (a b : string) :
  String.length (a +:+ b) = String.length a + String.length b.
Proof. induction a as [|x a IH]; simpl; congruence. Qed.

Lemma has_sep_app (a b : string) :
  has_sep (a +:+ b) = has_sep a || has_sep b.
Proof.
  induction a as [|x a IH]; simpl; [done|].
  rewrite IH. by rewrite orb_assoc.
Qed.

Lemma rfind_none (p : string) : has_sep p = false → rfind_sep_succ p = 0.
Proof.
  induction p as [|c r IH]; simpl; [done|].
  intros [Hc Hr]%orb_false_elim. rewrite (IH Hr). by rewrite Hc.
Qed.

Lemma rfind_some (p : string) : has_sep p = true → rfind_sep_succ p ≠ 0.
Proof.
  induction p as [|c r IH]; simpl; [done|].
  destruct (rfind_sep_succ r) eqn:E; [|done].
  destruct (is_sep c) eqn:Hc; [done|]. simpl. intros Hr. by apply IH.
Qed.

Lemma endswith_sep_cons (c : ascii) (s : string) :
  s ≠ "" → endswith_sep (String c s) = endswith_sep s.
Proof. by destruct s. Qed.

(** The head that [split] cuts off is empty or ends with a separator, and
    the tail holds no separator. *)
Lemma slice_to_from (i : nat) (p : string) :
  slice_to i p +:+ slice_from i p = p.
Proof.
  revert p; induction i as [|i IH]; intros [|c r]; simpl; try done.
  by rewrite IH.
Qed.

Lemma tail_no_sep (p : string) :
  has_sep (slice_from (rfind_sep_succ p) p) = false.
Proof.
  induction p as [|c r IH]; simpl; [done|].
  destruct (rfind_sep_succ r) eqn:E.
  - simpl in IH. destruct (is_sep c) eqn:Hc; simpl; [done|].
    by rewrite Hc.
  - done.
Qed.

Lemma head_ends_with_sep (p : string) :
  rfind_sep_succ p ≠ 0 →
  endswith_sep (slice_to (rfind_sep_succ p) p) = true.
Proof.
  induction p as [|c r IH]; simpl; [done|].
  destruct (rfind_sep_succ r) eqn:E.
  - destruct (is_sep c) eqn:Hc; [|done]. intros _. simpl.
    by destruct r.
  - intros _. change (endswith_sep (String c (slice_to (S n) r)) = true).
    rewrite endswith_sep_cons; [by apply IH|].
    destruct r; [done|]. done.
Qed.

(** Conversely, a head of that shape in front of a separator-free tail is
    found again. *)
Lemma rfind_app (h t : string) :
  h = "" ∨ endswith_sep h = true → has_sep t = false →
  rfind_sep_succ (h +:+ t) = String.length h.
Proof.
  intros Hh Ht. induction h as [|c h IH]; simpl.
  - by apply rfind_none.
  - destruct Hh as [|Hh]; [done|].
    destruct h as [|c' h'].
    + simpl in *. rewrite (rfind_none t Ht). by rewrite Hh.
    + rewrite IH; [done|]. right. by rewrite endswith_sep_cons in Hh.
Qed.

Lemma slice_to_app (h t : string) : slice_to (String.length h) (h +:+ t) = h.
Proof. induction h as [|c h IH]; simpl; [by destruct t|]. by rewrite IH. Qed.

Lemma slice_from_app (h t : string) :
  slice_from (String.length h) (h +:+ t) = t.
Proof. induction h as [|c h IH]; simpl; [by destruct t|]. done. Qed.

Lemma is_sep_true (c : ascii) : is_sep c = true → c = sep.
Proof. unfold is_sep. by intros ?%bool_decide_eq_true. Qed.

Lemma all_sep_app (a b : string) :
  all_sep (a +:+ b) = all_sep a && all_sep b.
Proof.
  induction a as [|x a IH]; simpl; [done|].
  rewrite IH. by rewrite andb_assoc.
Qed.

Lemma no_sep_not_startswith (s : string) :
  has_sep s = false → startswith_sep s = false.
Proof. destruct s; simpl; [done|]. by intros [? _]%orb_false_elim. Qed.

(** [rstrip]. *)
Lemma rstrip_not_endswith (s : string) : endswith_sep (rstrip_sep s) = false.
Proof.
  induction s as [|c r IH]; simpl; [done|].
  destruct (rstrip_sep r) as [|c' r'] eqn:E.
  - by destruct (is_sep c) eqn:Hc.
  - by rewrite endswith_sep_cons.
Qed.

Lemma rstrip_fixed (s : string) : endswith_sep s = false → rstrip_sep s = s.
Proof.
  induction s as [|c r IH]; [done|].
  destruct r as [|c' r'].
  - simpl. by intros ->.
  - rewrite endswith_sep_cons; [|done]. intros H.
    change (rstrip_sep (String c (String c' r')))
      with (match rstrip_sep (String c' r') with
            | "" => if is_sep c then "" else String c ""
            | r0 => String c r0
            end).
    by rewrite IH.
Qed.

Lemma rstrip_app_sep (s : string) :
  rstrip_sep (s +:+ String sep "") = rstrip_sep s.
Proof. induction s as [|c r IH]; simpl; [done|]. by rewrite IH. Qed.

Lemma rstrip_decompose (s : string) :
  ∃ seps, s = rstrip_sep s +:+ seps ∧ all_sep seps = true.
Proof.
  induction s as [|c r (seps & Hr & Hs)]; simpl.
  - by exists "".
  - destruct (rstrip_sep r) as [|c' r'] eqn:E.
    + simpl in Hr. subst r. destruct (is_sep c) eqn:Hc.
      * exists (String c seps). simpl. by rewrite Hc.
      * by exists seps.
    + exists seps. split; [|done]. by rewrite Hr at 1.
Qed.

Lemma not_endswith_not_all_sep (s : string) :
  s ≠ "" → endswith_sep s = false → all_sep s = false.
Proof.
  induction s as [|c r IH]; [done|]. intros _.
  destruct r as [|c' r'].
  - simpl. by intros ->.
  - rewrite endswith_sep_cons; [|done]. intros H.
    change (is_sep c && all_sep (String c' r') = false).
    rewrite IH; [|done|done]. by rewrite andb_false_r.
Qed.

Lemma all_sep_rstrip (s : string) : all_sep s = false → rstrip_sep s ≠ "".
Proof.
  induction s as [|c r IH]; simpl; [done|].
  destruct (rstrip_sep r) eqn:E; [|done].
  destruct (is_sep c) eqn:Hc; [|done]. simpl. intros H. by apply IH in H.
Qed.

Lemma split_head_normal (p : string) : normal_head (fst (split p)).
Proof.
  unfold split, normal_head. simpl.
  destruct (slice_to (rfind_sep_succ p) p) as [|c h] eqn:E; [by left|].
  simpl nonempty. rewrite andb_true_l.
  destruct (all_sep (String c h)) eqn:Ha; cbv [negb]; [by left|].
  right. exact (rstrip_not_endswith (String c h)).
Qed.

Lemma split_tail_no_sep (p : string) : has_sep (snd (split p)) = false.
Proof. apply tail_no_sep. Qed.

(** Joining a normal head and a separator-free leaf and splitting again
    gives the two back. *)
Lemma split_join (h leaf : string) :
  normal_head h → has_sep leaf = false → split (join h leaf) = (h, leaf).
Proof.
  intros Hh Hleaf. unfold join.
  rewrite (no_sep_not_startswith leaf Hleaf).
  destruct h as [|c h'] eqn:Eh.
  - simpl. unfold split. rewrite (rfind_none leaf Hleaf). by destruct leaf.
  - simpl nonempty. simpl negb. rewrite orb_false_l.
    destruct (endswith_sep (String c h')) eqn:Hends.
    + destruct Hh as [Hall|?]; [|congruence].
      unfold split. rewrite rfind_app; [|by right|done].
      rewrite slice_to_app, slice_from_app. by rewrite Hall.
    + replace (String c h' +:+ String sep leaf)
        with ((String c h' +:+ String sep "") +:+ leaf)
        by (by rewrite str_app_assoc).
      assert (Hs : endswith_sep (String c h' +:+ String sep "") = true).
      { clear. generalize (String c h'). intros s.
        induction s as [|x s IH]; [done|].
        simpl. destruct (s +:+ String sep "") eqn:E; [by destruct s|done]. }
      unfold split. rewrite rfind_app; [|by right|done].
      rewrite slice_to_app, slice_from_app.
      assert (Hn : all_sep (String c h' +:+ String sep "") = false).
      { rewrite all_sep_app, not_endswith_not_all_sep; done. }
      rewrite Hn.
      replace (nonempty (String c h' +:+ String sep "")) with true by done.
      cbv [andb negb]. rewrite rstrip_app_sep.
      by rewrite (rstrip_fixed _ Hends).
Qed.

(** *** The temporary directory *)

Lemma split_temp_export_dir (final : string) :
  split (_get_temp_export_dir final)
  = (fst (split final), "temp-" +:+ snd (split final)).
Proof.
  unfold _get_temp_export_dir.
  pose proof (split_head_normal final) as Hh.
  pose proof (split_tail_no_sep final) as Ht.
  destruct (split final) as [dirname basename]. simpl in Hh, Ht.
  cbv [fst snd]. apply split_join; [done|]. by rewrite has_sep_app, Ht.
Qed.

Example temp_dir_of_docstring :
  _get_temp_export_dir "/foo/bar/1530000000" = "/foo/bar/temp-1530000000".
Proof. reflexivity. Qed.

Example temp_dir_of_relative_path :
  _get_temp_export_dir "1530000000" = "temp-1530000000".
Proof. reflexivity. Qed.

Example temp_dir_of_doubled_separator :
  _get_temp_export_dir "a//b" = "a/temp-b".
Proof. reflexivity. Qed.

(** The final path and its temporary sibling differ right after a common
    part [common]: the final path goes on with separators (if any) and the
    leaf, the temporary one with ["temp-"] and the leaf. *)
Lemma temp_export_dir_shape (final : string) :
  ∃ common seps,
    final = common +:+ seps +:+ snd (split final) ∧
    _get_temp_export_dir final = common +:+ "temp-" +:+ snd (split final) ∧
    all_sep seps = true.
Proof.
  pose proof (slice_to_from (rfind_sep_succ final) final) as Hcat.
  pose proof (tail_no_sep final) as Ht.
  pose proof (head_ends_with_sep final) as Hends.
  unfold _get_temp_export_dir, split.
  set (t := slice_from (rfind_sep_succ final) final) in *.
  set (H := slice_to (rfind_sep_succ final) final) in *.
  assert (Hstart : startswith_sep ("temp-" +:+ t) = false) by done.
  cbv beta iota zeta. cbn [snd].
  destruct (decide (H = "")) as [HH|HH].
  - exists "", "". rewrite HH in *. cbn [nonempty andb].
    unfold join. rewrite Hstart. by cbn.
  - assert (Hne : nonempty H = true) by (by destruct H).
    assert (Hn : rfind_sep_succ final ≠ 0).
    { intros Hz. apply HH. unfold H. rewrite Hz. by destruct final. }
    specialize (Hends Hn). rewrite Hne, andb_true_l.
    destruct (all_sep H) eqn:Hall; cbv [negb].
    + exists H, "". unfold join. rewrite Hstart, Hne, Hends.
      cbv [negb orb]. split; [by rewrite <- Hcat|done].
    + destruct (rstrip_decompose H) as (seps & Hdec & Hseps).
      pose proof (all_sep_rstrip _ Hall) as Hr.
      pose proof (rstrip_not_endswith H) as Hre.
      set (h := rstrip_sep H) in *.
      assert (Hhne : nonempty h = true) by (by destruct h).
      unfold join. rewrite Hstart, Hhne, Hre. cbv [negb orb].
      destruct seps as [|s seps'].
      { rewrite str_app_nil_r in Hdec. congruence. }
      simpl in Hseps. apply andb_true_iff in Hseps as [Hs Hseps'].
      apply is_sep_true in Hs. subst s.
      exists (h +:+ String sep ""), seps'.
      split; [|split; [|done]].
      * rewrite <- Hcat, Hdec. by rewrite !str_app_assoc.
      * by rewrite !str_app_assoc.
Qed.

(** Two leaves without separator that are followed by nothing or by a
    separator are equal when the whole strings are. *)
Lemma leaf_unique (t u x y : string) :
  has_sep t = false → has_sep u = false →
  x = "" ∨ startswith_sep x = true →
  y = "" ∨ startswith_sep y = true →
  t +:+ x = u +:+ y → t = u.
Proof.
  revert u. induction t as [|c t IH]; intros [|c' u] Ht Hu Hx Hy; simpl.
  - done.
  - intros ->. simpl in Hu. apply orb_false_elim in Hu as [Hc _].
    destruct Hx as [|Hx]; [done|]. simpl in Hx. congruence.
  - intros <-. simpl in Ht. apply orb_false_elim in Ht as [Hc _].
    destruct Hy as [|Hy]; [done|]. simpl in Hy. congruence.
  - intros [= -> Heq]. f_equal.
    simpl in Ht, Hu. apply orb_false_elim in Ht as [_ Ht].
    apply orb_false_elim in Hu as [_ Hu]. by apply (IH u).
Qed.

End StringFacts.

(** ** Runs of the exporter *)

Section RunFacts.

Context `{env : Collaborators}.

Lemma run_bind {A B : Type} (c : exec A) (f : A → exec B) (w : world) :
  (c ≫= f) w = match c w with
               | (Returned a, w') => f a w'
               | (Raised e, w') => (Raised e, w')
               end.
Proof. reflexivity. Qed.

(** A dict has a value at each of its keys, and at no other key. *)
Lemma dict_get_is_Some {V : Type} (key : string) (d : list (string * V)) :
  key ∈ map fst d → ∃ v, dict_get key d = Some v.
Proof.
  induction d as [|[k v] d IH]; simpl.
  - by intros ?%elem_of_nil.
  - intros Hin. destruct (String.eqb k key) eqn:E; [by eexists|].
    apply IH. apply elem_of_cons in Hin as [->|Hin]; [|done].
    by rewrite String.eqb_refl in E.
Qed.

Lemma dict_get_None {V : Type} (key : string) (d : list (string * V)) :
  key ∉ map fst d → dict_get key d = None.
Proof.
  induction d as [|[k v] d IH]; simpl; [done|].
  intros Hnot. destruct (String.eqb k key) eqn:E.
  - apply String.eqb_eq in E as ->. exfalso. apply Hnot. apply list_elem_of_here.
  - apply IH. intros Hin. apply Hnot. by apply list_elem_of_further.
Qed.

Lemma for_each_tag_node (prefix : string) (xs : list (string * tensor)) (w : world) :
  for_each xs (add_node prefix) w = (Returned tt, foldl (tag_node prefix) w xs).
Proof.
  revert w. induction xs as [|[k n] xs IH]; intros w; [done|].
  simpl for_each. rewrite run_bind. simpl. by rewrite IH.
Qed.

Lemma for_each_tag_metric (ms : metric_ops) (w : world) :
  for_each ms add_metric w = (Returned tt, foldl tag_metric w ms).
Proof.
  revert w. induction ms as [|[k [v u]] ms IH]; intros w; [done|].
  simpl for_each. rewrite run_bind. simpl. by rewrite IH.
Qed.

Lemma record_all_record (e : event) (es : list event) (w : world) :
  record_all es (record e w) = record_all (e :: es) w.
Proof. unfold record_all, record. simpl. by rewrite <- app_assoc. Qed.

Lemma for_each_emit (f : string → event) (xs : list string) (w : world) :
  for_each xs (fun x => emit (f x)) w = (Returned tt, record_all (map f xs) w).
Proof.
  revert w. induction xs as [|x xs IH]; intros w.
  - unfold record_all. simpl. rewrite app_nil_r. by destruct w.
  - simpl for_each. rewrite run_bind. simpl. rewrite IH.
    by rewrite record_all_record.
Qed.

Lemma call_run {A : Type} (e : event) (r : outcome A) (w : world) :
  call e r w = (r, record e w).
Proof. by destruct r. Qed.

Lemma adapt_model_fn_run estimator wf wl (w : world) :
  adapt_model_fn estimator wf wl w
  = match model_fn estimator wf wl EVAL (config estimator) with
    | Returned result => (Returned (adapted estimator result),
                          record (ModelFnCalled wf wl EVAL) w)
    | Raised e => (Raised e, record (ModelFnCalled wf wl EVAL) w)
    end.
Proof.
  unfold adapt_model_fn, adapted.
  destruct (isinstance_Estimator estimator);
    rewrite run_bind, call_run; by destruct (model_fn _ _ _ _ _).
Qed.

Lemma items_to_mapping_run (default_key : string) v (w : world) :
  items (to_mapping default_key v) w = (Returned (entries default_key v), w).
Proof. by destruct v. Qed.

Lemma lift_run {A : Type} (r : outcome A) (w : world) : lift r w = (r, w).
Proof. by destruct r. Qed.

Lemma items_run v (w : world) : items v w = (items_of v, w).
Proof. apply lift_run. Qed.

Lemma getitem_run v key (w : world) : getitem v key w = (subscript v key, w).
Proof. apply lift_run. Qed.

Lemma resolve_checkpoint_run estimator checkpoint_path (w : world) :
  resolve_checkpoint estimator checkpoint_path w
  = if no_checkpoint estimator checkpoint_path
    then (Raised (ValueError ("Could not find trained model at " +:+
                              model_dir estimator +:+ ".")), w)
    else (Returned (checkpoint_used estimator checkpoint_path), w).
Proof.
  unfold resolve_checkpoint, no_checkpoint, checkpoint_used.
  destruct (py_not checkpoint_path); [|done].
  by destruct (py_not (latest_checkpoint (model_dir estimator))).
Qed.

Lemma add_meta_graph_and_variables_run builder tags assets op (w : world) :
  add_meta_graph_and_variables builder tags assets op w
  = (Returned tt,
     record_all (MetaGraphAdded tags assets op
                 :: map (fun f => FileWritten (slash builder f)) variables_files) w).
Proof.
  unfold add_meta_graph_and_variables. rewrite run_bind. simpl.
  rewrite (for_each_emit (fun f => FileWritten (slash builder f))).
  by rewrite record_all_record.
Qed.

Lemma record_all_app (es1 es2 : list event) (w : world) :
  record_all es2 (record_all es1 w) = record_all (es1 ++ es2) w.
Proof. unfold record_all. simpl. by rewrite <- app_assoc. Qed.

Lemma save_run estimator spec checkpoint temp export_dir (w : world) :
  (emit (SessionOpened (chosen_session_config estimator)) ;;
   emit (CheckpointRestored (saver_for_restore spec) checkpoint) ;;
   builder ← SavedModelBuilder temp;
   assets ← get_collection constants.ASSET_FILEPATHS;
   add_meta_graph_and_variables builder [constants.EVAL_SAVED_MODEL_TAG]
                                assets (chosen_local_init_op spec) ;;
   builder_save builder false ;;
   emit (Renamed temp export_dir) ;;
   emit SessionClosed ;;
   mret export_dir) w
  = (Returned export_dir,
     record_all (save_calls estimator spec checkpoint temp
                            (collection w constants.ASSET_FILEPATHS)
                 ++ [Renamed temp export_dir; SessionClosed]) w).
Proof.
  unfold SavedModelBuilder, builder_save.
  do 4 (rewrite run_bind; simpl).
  rewrite run_bind, add_meta_graph_and_variables_run.
  do 3 (rewrite run_bind; simpl).
  f_equal. unfold record. rewrite <- !record_all_record.
  change (collection _ constants.ASSET_FILEPATHS)
    with (collection w constants.ASSET_FILEPATHS).
  unfold save_calls, record_all. simpl. f_equal.
  by rewrite <- !app_assoc.
Qed.

Lemma emit_run (e : event) (w : world) : emit e w = (Returned tt, record e w).
Proof. reflexivity. Qed.

Lemma add_to_collection_run name value (w : world) :
  add_to_collection name value w = (Returned tt, append_to name value w).
Proof. reflexivity. Qed.

Lemma graph_as_default_run (w : world) :
  graph_as_default w = (Returned tt, fresh_graph w).
Proof. reflexivity. Qed.

(** One step of a run: the first action of a sequence is replaced by its
    result. *)
Ltac step eqn := rewrite run_bind, eqn; cbv beta iota zeta.

Lemma export_eval_savedmodel_run estimator export_dir_base
    eval_input_receiver_fn checkpoint_path (w : world) :
  export_eval_savedmodel estimator export_dir_base eval_input_receiver_fn
                         checkpoint_path w
  = export_summary estimator export_dir_base eval_input_receiver_fn
                   checkpoint_path w.
Proof.
  unfold export_eval_savedmodel, export_summary.
  step graph_as_default_run. step @call_run.
  destruct (eval_input_receiver_fn ()) as [r|e]; [|done].
  step emit_run. step emit_run. step adapt_model_fn_run.
  destruct (model_fn _ _ _ _ _) as [result|e]; [|done].
  step add_to_collection_run. step for_each_tag_metric.
  step items_to_mapping_run. step for_each_tag_node.
  step getitem_run.
  destruct (subscript _ _) as [examples|e]; [|done].
  step add_to_collection_run. step items_to_mapping_run.
  step for_each_tag_node. step items_run.
  destruct (items_of _) as [feature_items|e]; [|done].
  step for_each_tag_node. step resolve_checkpoint_run.
  destruct (no_checkpoint _ _); [done|].
  apply save_run.
Qed.

(** *** Collections and trace of the world after each step *)

Lemma collection_record e (w : world) name :
  collection (record e w) name = collection w name.
Proof. reflexivity. Qed.

Lemma collection_record_all es (w : world) name :
  collection (record_all es w) name = collection w name.
Proof. reflexivity. Qed.

Lemma collection_fresh_graph (w : world) name :
  collection (fresh_graph w) name = [].
Proof. unfold collection, fresh_graph. simpl. by rewrite lookup_empty. Qed.

Lemma collection_append_to target value (w : world) name :
  collection (append_to target value w) name
  = collection w name ++ at_name target [value] name.
Proof.
  unfold collection at 1, append_to, at_name. simpl.
  destruct (decide (name = target)) as [->|Hne].
  - by rewrite lookup_insert_eq.
  - rewrite lookup_insert_ne by done. by rewrite app_nil_r.
Qed.

Lemma slash_inj prefix a b : slash prefix a = slash prefix b → a = b.
Proof.
  unfold slash. intros H. apply (inj (String.app prefix)) in H.
  by apply (inj (String.app "/")) in H.
Qed.

Lemma collection_tag_nodes prefix xs (w : world) name :
  collection (foldl (tag_node prefix) w xs) name
  = collection w name ++ node_bucket prefix xs name.
Proof.
  assert (Hne : slash prefix encoding.KEY_SUFFIX ≠ slash prefix encoding.NODE_SUFFIX)
    by (by intros ?%slash_inj).
  revert w. induction xs as [|[k n] xs IH]; intros w.
  - unfold node_bucket, at_name. simpl. repeat case_decide; by rewrite app_nil_r.
  - simpl foldl. rewrite IH. unfold tag_node.
    rewrite !collection_append_to. rewrite <- !app_assoc. f_equal.
    unfold node_bucket, at_name. simpl.
    repeat case_decide; simplify_eq; done.
Qed.

Lemma collection_tag_metrics ms (w : world) name :
  collection (foldl tag_metric w ms) name
  = collection w name ++ metric_bucket ms name.
Proof.
  assert (Hkv : slash encoding.METRICS_COLLECTION encoding.KEY_SUFFIX
                ≠ slash encoding.METRICS_COLLECTION encoding.VALUE_OP_SUFFIX) by done.
  assert (Hku : slash encoding.METRICS_COLLECTION encoding.KEY_SUFFIX
                ≠ slash encoding.METRICS_COLLECTION encoding.UPDATE_OP_SUFFIX) by done.
  assert (Hvu : slash encoding.METRICS_COLLECTION encoding.VALUE_OP_SUFFIX
                ≠ slash encoding.METRICS_COLLECTION encoding.UPDATE_OP_SUFFIX) by done.
  revert w. induction ms as [|[k [v u]] ms IH]; intros w.
  - unfold metric_bucket, at_name. simpl. repeat case_decide; by rewrite app_nil_r.
  - simpl foldl. rewrite IH. unfold tag_metric.
    rewrite !collection_append_to. rewrite <- !app_assoc. f_equal.
    unfold metric_bucket, at_name. simpl.
    repeat case_decide; simplify_eq; done.
Qed.

Lemma trace_append_to target value (w : world) :
  trace (append_to target value w) = trace w.
Proof. reflexivity. Qed.

Lemma trace_tag_nodes prefix xs (w : world) :
  trace (foldl (tag_node prefix) w xs) = trace w.
Proof. revert w. induction xs as [|x xs IH]; intros w; [done|]. simpl. by rewrite IH. Qed.

Lemma trace_tag_metrics ms (w : world) : trace (foldl tag_metric w ms) = trace w.
Proof. revert w. induction ms as [|x xs IH]; intros w; [done|]. simpl. by rewrite IH. Qed.

Lemma trace_tag_model spec (w : world) : trace (tag_model spec w) = trace w.
Proof.
  unfold tag_model. by rewrite trace_tag_nodes, trace_tag_metrics, trace_append_to.
Qed.

Lemma trace_tag_inputs examples r (w : world) :
  trace (tag_inputs examples r w) = trace w.
Proof. unfold tag_inputs. by rewrite trace_tag_nodes, trace_append_to. Qed.

(** *** The run once the graph is built and tagged *)

Section Tagged.

Variables (estimator : Estimator) (export_dir_base : string)
          (eval_input_receiver_fn : unit → outcome EvalInputReceiver)
          (checkpoint_path : option string) (w : world).
Variables (r : EvalInputReceiver) (result : model_fn_result)
          (examples : tensor) (feature_items : list (string * tensor)).

Hypothesis receiver_returns : eval_input_receiver_fn tt = Returned r.
Hypothesis model_fn_returns :
  model_fn estimator
           (wrap_tensor_or_dict_of_tensors_in_identity (features r))
           (wrap_tensor_or_dict_of_tensors_in_identity (labels r))
           EVAL (config estimator) = Returned result.
Hypothesis examples_found :
  subscript (receiver_tensors r) "examples" = Returned examples.
Hypothesis features_are_a_dict : items_of (features r) = Returned feature_items.

Lemma export_after_tagging :
  export_eval_savedmodel estimator export_dir_base eval_input_receiver_fn
                         checkpoint_path w
  = let tagged_world := tagged estimator r result examples feature_items w in
    if no_checkpoint estimator checkpoint_path then
      (Raised (ValueError ("Could not find trained model at " +:+
                           model_dir estimator +:+ ".")), tagged_world)
    else
      let export_dir := get_timestamped_dir export_dir_base in
      let temp_export_dir := _get_temp_export_dir export_dir in
      (Returned export_dir,
       record_all
         (save_calls estimator (adapted estimator result)
            (checkpoint_used estimator checkpoint_path) temp_export_dir
            (collection tagged_world constants.ASSET_FILEPATHS)
          ++ [Renamed temp_export_dir export_dir; SessionClosed]) tagged_world).
Proof.
  rewrite export_eval_savedmodel_run. unfold export_summary.
  rewrite receiver_returns. cbv zeta. rewrite model_fn_returns, examples_found,
    features_are_a_dict.
  replace (tagged estimator r result examples feature_items w)
    with (foldl (tag_node encoding.FEATURES_COLLECTION)
       (tag_inputs examples r
          (tag_model (adapted estimator result)
             (record
                (ModelFnCalled
                   (wrap_tensor_or_dict_of_tensors_in_identity (features r))
                   (wrap_tensor_or_dict_of_tensors_in_identity (labels r))
                   EVAL)
                (record (RandomSeedSet (tf_random_seed (config estimator)))
                   (record GlobalStepCreated
                      (record ReceiverFnCalled (fresh_graph w)))))))
       feature_items); [done|].
  unfold tagged. do 3 f_equal.
  unfold record, record_all, fresh_graph, graph_calls. simpl.
  f_equal. by rewrite <- !app_assoc.
Qed.

Lemma trace_tagged :
  trace (tagged estimator r result examples feature_items w)
  = trace w ++ graph_calls estimator r.
Proof.
  unfold tagged, tag_inputs, tag_model.
  by rewrite !trace_tag_nodes, trace_append_to, trace_tag_nodes,
    trace_tag_metrics, trace_append_to.
Qed.

Lemma collection_tagged name :
  collection (tagged estimator r result examples feature_items w) name
  = registered (adapted estimator result) r examples feature_items name.
Proof.
  unfold tagged, tag_inputs, tag_model, registered.
  rewrite !collection_tag_nodes, collection_append_to, collection_tag_nodes,
    collection_tag_metrics, collection_append_to, collection_record_all.
  unfold collection at 1. simpl. rewrite lookup_empty. simpl.
  by rewrite <- !app_assoc.
Qed.

(** Whatever the checkpoint step does, the collections are those of the
    tagged world. *)
Lemma collection_after_export name :
  collection
    (snd (export_eval_savedmodel estimator export_dir_base
            eval_input_receiver_fn checkpoint_path w)) name
  = registered (adapted estimator result) r examples feature_items name.
Proof.
  rewrite export_after_tagging. cbv zeta.
  destruct (no_checkpoint _ _); simpl; apply collection_tagged.
Qed.

End Tagged.

(** A run that returns has gone through every step. *)
Lemma export_returns_inv estimator export_dir_base eval_input_receiver_fn
    checkpoint_path (w : world) (d : string) :
  fst (export_eval_savedmodel estimator export_dir_base eval_input_receiver_fn
                              checkpoint_path w) = Returned d →
  ∃ r result examples feature_items,
    eval_input_receiver_fn tt = Returned r ∧
    model_fn estimator
             (wrap_tensor_or_dict_of_tensors_in_identity (features r))
             (wrap_tensor_or_dict_of_tensors_in_identity (labels r))
             EVAL (config estimator) = Returned result ∧
    subscript (receiver_tensors r) "examples" = Returned examples ∧
    items_of (features r) = Returned feature_items ∧
    no_checkpoint estimator checkpoint_path = false ∧
    d = get_timestamped_dir export_dir_base.
Proof.
  rewrite export_eval_savedmodel_run. unfold export_summary.
  destruct (eval_input_receiver_fn ()) as [r|]; [|done]. cbv zeta.
  destruct (model_fn _ _ _ _ _) as [result|] eqn:Hm; [|done].
  destruct (subscript _ _) as [examples|] eqn:Hs; [|done].
  destruct (items_of _) as [feature_items|] eqn:Hi; [|done].
  destruct (no_checkpoint _ _) eqn:Hc; [done|].
  simpl. intros [= <-]. by exists r, result, examples, feature_items.
Qed.

(** *** Reading one bucket *)

Lemma at_name_eq target (values : list bytes) : at_name target values target = values.
Proof. unfold at_name. by rewrite decide_True. Qed.

Lemma at_name_ne target (values : list bytes) name :
  name ≠ target → at_name target values name = [].
Proof. intros. unfold at_name. by rewrite decide_False. Qed.

Lemma adapted_predictions estimator result :
  attr_predictions (adapted estimator result) = attr_predictions result.
Proof. unfold adapted. by destruct (isinstance_Estimator estimator). Qed.

Lemma adapted_eval_metric_ops estimator result :
  attr_eval_metric_ops (adapted estimator result) = attr_eval_metric_ops result.
Proof. unfold adapted. by destruct (isinstance_Estimator estimator). Qed.

Lemma adapted_scaffold estimator result :
  attr_scaffold (adapted estimator result) = attr_scaffold result.
Proof. unfold adapted. by destruct (isinstance_Estimator estimator). Qed.

Section Decoding.

Variables (decode_key : bytes → string) (decode_tensor_node : bytes → tensor).
Hypothesis decode_key_encode : ∀ k, decode_key (encode_key k) = k.
Hypothesis decode_node_encode : ∀ t, decode_tensor_node (encode_tensor_node t) = t.

Lemma decode_nodes (xs : list (string * tensor)) :
  zip (map decode_key (map (fun kv => encode_key (fst kv)) xs))
      (map decode_tensor_node (map (fun kv => encode_tensor_node (snd kv)) xs))
  = xs.
Proof.
  induction xs as [|[k t] xs IH]; [done|]. simpl.
  by rewrite decode_key_encode, decode_node_encode, IH.
Qed.

Lemma decode_metrics (ms : metric_ops) :
  zip (map decode_key (map (fun m => encode_key (fst m)) ms))
      (zip (map decode_tensor_node
              (map (fun m => encode_tensor_node (fst (snd m))) ms))
           (map decode_tensor_node
              (map (fun m => encode_tensor_node (snd (snd m))) ms)))
  = ms.
Proof.
  induction ms as [|[k [v u]] ms IH]; [done|]. simpl.
  by rewrite decode_key_encode, !decode_node_encode, IH.
Qed.

End Decoding.

End RunFacts.

(** Two collection names that are different strings. *)
Ltac names_differ :=
  let H := fresh in intros H; vm_compute in H; discriminate H.

(** Reduce [registered], [node_bucket] and [metric_bucket] at a given name. *)
Ltac read_bucket :=
  unfold registered, metric_bucket, node_bucket;
  rewrite ?at_name_eq;
  rewrite ?at_name_ne by names_differ;
  rewrite ?app_nil_r; simpl; rewrite ?app_nil_r.

(** ** The file system under a trace *)

Section FileSystemFacts.

Context `{env : Collaborators}.

Import PosixPath.

#[local] Arguments String.append !_ _ : simpl nomatch.

Lemma under_inv (dir p : string) :
  under dir p → ∃ x, p = dir +:+ x ∧ (x = "" ∨ startswith_sep x = true).
Proof.
  intros [->|[rest ->]].
  - exists "". by rewrite str_app_nil_r; auto.
  - exists ("/" +:+ rest). split; [done|by right].
Qed.

(** Nothing lies both under the final path and under its temporary
    sibling. *)
Lemma temp_final_disjoint (final p : string) :
  under final p → under (_get_temp_export_dir final) p → False.
Proof.
  intros (x & Hx & Hxs)%under_inv (y & Hy & Hys)%under_inv.
  destruct (temp_export_dir_shape final) as (common & seps & Hf & Ht & Hseps).
  pose proof (split_tail_no_sep final) as Hleaf.
  set (leaf := snd (split final)) in *.
  rewrite Ht in Hy. rewrite Hf in Hx. subst p.
  rewrite !str_app_assoc in Hy. apply (inj (String.app common)) in Hy.
  destruct seps as [|c seps'].
  - simpl in Hy.
    assert (Heq : leaf = "temp-" +:+ leaf).
    { by apply (leaf_unique leaf ("temp-" +:+ leaf) x y). }
    apply (f_equal String.length) in Heq. rewrite str_app_length in Heq.
    simpl in Heq. lia.
  - simpl in Hseps. apply andb_true_iff in Hseps as [Hc _].
    apply is_sep_true in Hc. subst c. simpl in Hy. discriminate.
Qed.

Lemma strip_prefix_self (s : string) : strip_prefix s s = Some "".
Proof.
  induction s as [|c s IH]; [done|]. simpl.
  by rewrite bool_decide_eq_true_2.
Qed.

Lemma moved_self (src dst : string) : moved src dst src = dst.
Proof. unfold moved. by rewrite strip_prefix_self. Qed.

Lemma fs_after_app (es1 es2 : list event) (fs : gset string) :
  fs_after (es1 ++ es2) fs = fs_after es2 (fs_after es1 fs).
Proof. apply foldl_app. Qed.

(** While the trace only creates and writes under [dir], whatever exists
    was there before or lies under [dir], and nothing goes away. *)
Lemma fs_after_sound dir (es : list event) (fs : gset string) (p : string) :
  Forall (writes_only_under dir) es →
  p ∈ fs_after es fs → p ∈ fs ∨ under dir p.
Proof.
  intros Hes. revert fs. induction Hes as [|e es He Hes IH]; intros fs; [by left|].
  unfold fs_after. simpl. intros Hp. apply IH in Hp as [Hp|Hp]; [|by right].
  destruct e; simpl in *; try (by left);
    apply elem_of_union in Hp as [->%elem_of_singleton|Hp]; auto.
Qed.

Lemma fs_after_keeps dir (es : list event) (fs : gset string) (p : string) :
  Forall (writes_only_under dir) es → p ∈ fs → p ∈ fs_after es fs.
Proof.
  intros Hes. revert fs. induction Hes as [|e es He Hes IH]; intros fs Hp; [done|].
  unfold fs_after. simpl. apply IH.
  destruct e; simpl in *; try done; set_solver.
Qed.

Lemma fs_after_creates dir (es : list event) (fs : gset string) (p : string) :
  Forall (writes_only_under dir) es → DirCreated p ∈ es → p ∈ fs_after es fs.
Proof.
  intros Hes. revert fs. induction Hes as [|e es He Hes IH]; intros fs Hin.
  - by apply elem_of_nil in Hin.
  - unfold fs_after. simpl. apply elem_of_cons in Hin as [<-|Hin].
    + apply (fs_after_keeps dir); [done|]. simpl. set_solver.
    + by apply IH.
Qed.

(** The calls of a run before the rename stay under the temporary
    directory. *)
Lemma run_writes_under_temp estimator r spec checkpoint temp assets :
  Forall (writes_only_under temp)
         (graph_calls estimator r
          ++ save_calls estimator spec checkpoint temp assets).
Proof.
  apply Forall_app. split.
  - unfold graph_calls. by repeat constructor.
  - unfold save_calls. repeat first [apply Forall_cons; split | apply Forall_app; split];
      simpl; try done.
    + by left.
    + apply Forall_forall. intros e (f & -> & _)%list_elem_of_fmap.
      simpl. right. by exists f.
    + right. by eexists.
Qed.

(** *** Order of calls in a trace *)

Lemma occurs_before_nil (a b : event) : ¬ occurs_before a b [].
Proof. intros (t1 & t2 & t3 & H). by destruct t1. Qed.

Lemma occurs_before_cons (a b x : event) (t : list event) :
  occurs_before a b (x :: t) → (x = a ∧ b ∈ t) ∨ occurs_before a b t.
Proof.
  intros (t1 & t2 & t3 & H). destruct t1 as [|y t1]; simpl in H.
  - injection H as -> ->. left. split; [done|].
    apply elem_of_app. right. apply list_elem_of_here.
  - injection H as -> ->. right. by exists t1, t2, t3.
Qed.

End FileSystemFacts.

(* ===================================================================== *)
(** * The claims *)
(* ===================================================================== *)

Section Claims.

Context `{env : Collaborators}.

(** C1.  A successful export returns the timestamped path; the directory
    every artifact is written to is the sibling of that path whose leaf is
    the timestamped leaf prefixed with "temp-"; the trace of the run ends
    with the one rename from the temporary to the final path (followed only
    by closing the session), every directory creation and file write before
    it lies under the temporary directory, and, starting from a file system
    with nothing at the final path, nothing is visible there after any
    number of the calls before the rename, while the path exists after it. *)
Theorem export_writes_to_temp_then_renames
    (estimator : Estimator) (export_dir_base : string)
    (eval_input_receiver_fn : unit → outcome EvalInputReceiver)
    (checkpoint_path : option string) (w : world) (d : string) :
  fst (export_eval_savedmodel estimator export_dir_base eval_input_receiver_fn
                              checkpoint_path w) = Returned d →
  let final := get_timestamped_dir export_dir_base in
  let temp := _get_temp_export_dir final in
  d = final ∧
  PosixPath.split temp
    = (fst (PosixPath.split final), "temp-" +:+ snd (PosixPath.split final)) ∧
  ∃ before : list event,
    trace (snd (export_eval_savedmodel estimator export_dir_base
                  eval_input_receiver_fn checkpoint_path w))
      = trace w ++ before ++ [Renamed temp final; SessionClosed] ∧
    Forall (writes_only_under temp) before ∧
    DirCreated temp ∈ before ∧
    ∀ fs0 : gset string, ¬ visible fs0 final →
      (∀ n, ¬ visible (fs_after (take n before) fs0) final) ∧
      visible (fs_after (before ++ [Renamed temp final]) fs0) final.
Proof.
  intros Hret final temp.
  destruct (export_returns_inv _ _ _ _ _ _ Hret)
    as (r & result & examples & feature_items & Hr & Hm & Hs & Hi & Hc & ->).
  split; [done|]. split; [apply split_temp_export_dir|].
  rewrite (export_after_tagging _ _ _ _ _ _ _ _ _ Hr Hm Hs Hi), Hc. cbv zeta.
  set (tw := tagged estimator r result examples feature_items w).
  set (saves := save_calls estimator (adapted estimator result)
                  (checkpoint_used estimator checkpoint_path)
                  (_get_temp_export_dir (get_timestamped_dir export_dir_base))
                  (collection tw constants.ASSET_FILEPATHS)).
  exists (graph_calls estimator r ++ saves).
  assert (Hunder : Forall (writes_only_under temp) (graph_calls estimator r ++ saves))
    by apply run_writes_under_temp.
  split; [|split; [done|split]].
  - simpl. unfold tw. rewrite (trace_tagged _ _ _ _ _ _).
    by rewrite <- !app_assoc.
  - apply elem_of_app. right. unfold saves, save_calls. simpl.
    do 2 apply list_elem_of_further. apply list_elem_of_here.
  - intros fs0 Hfresh. split.
    + intros n (p & Hp & Hu).
      apply (fs_after_sound temp) in Hp; [|by apply Forall_take].
      destruct Hp as [Hp|Hp].
      * apply Hfresh. by exists p.
      * by apply (temp_final_disjoint final p).
    + rewrite fs_after_app. exists final. split; [|left; reflexivity].
      set (fs1 := fs_after (graph_calls estimator r ++ saves) fs0).
      change (final ∈ (set_map (moved temp final) fs1 : gset string)).
      apply elem_of_map. exists temp. split; [by rewrite moved_self|].
      apply (fs_after_creates temp); [exact Hunder|].
      apply elem_of_app. right. unfold saves, save_calls. simpl.
      do 2 apply list_elem_of_further. apply list_elem_of_here.
Qed.

(** C2.  Once the graph is built and tagged, in each bucket (predictions,
    labels, features) the KEY and NODE collections have the same length and
    zipping their decoded contents gives back, in order, the mapping that
    was registered (the predictions and labels made mappings, the features
    as received); for the metrics the KEY, VALUE_OP and UPDATE_OP
    collections have the same length and zip back to the metric ops.  This
    holds for mappings of any size, the empty one included, and for any
    decoders that invert the encoders. *)
Theorem buckets_decode_to_registered_mappings
    (decode_key : bytes → string) (decode_tensor_node : bytes → tensor)
    (estimator : Estimator) (export_dir_base : string)
    (eval_input_receiver_fn : unit → outcome EvalInputReceiver)
    (checkpoint_path : option string) (w : world)
    (r : EvalInputReceiver) (result : model_fn_result) (examples : tensor)
    (feature_items : list (string * tensor)) :
  (∀ k, decode_key (encode_key k) = k) →
  (∀ t, decode_tensor_node (encode_tensor_node t) = t) →
  graph_built estimator eval_input_receiver_fn r result examples feature_items →
  let after := snd (export_eval_savedmodel estimator export_dir_base
                      eval_input_receiver_fn checkpoint_path w) in
  let keys prefix := collection after (slash prefix encoding.KEY_SUFFIX) in
  let nodes prefix := collection after (slash prefix encoding.NODE_SUFFIX) in
  let value_ops :=
    collection after (slash encoding.METRICS_COLLECTION encoding.VALUE_OP_SUFFIX) in
  let update_ops :=
    collection after (slash encoding.METRICS_COLLECTION encoding.UPDATE_OP_SUFFIX) in
  let decoded prefix :=
    zip (map decode_key (keys prefix)) (map decode_tensor_node (nodes prefix)) in
  (length (keys encoding.PREDICTIONS_COLLECTION)
     = length (nodes encoding.PREDICTIONS_COLLECTION) ∧
   decoded encoding.PREDICTIONS_COLLECTION
     = entries encoding.DEFAULT_PREDICTIONS_DICT_KEY (attr_predictions result)) ∧
  (length (keys encoding.LABELS_COLLECTION)
     = length (nodes encoding.LABELS_COLLECTION) ∧
   decoded encoding.LABELS_COLLECTION
     = entries encoding.DEFAULT_LABELS_DICT_KEY (labels r)) ∧
  (length (keys encoding.FEATURES_COLLECTION)
     = length (nodes encoding.FEATURES_COLLECTION) ∧
   Dict (decoded encoding.FEATURES_COLLECTION) = features r) ∧
  (length (keys encoding.METRICS_COLLECTION) = length value_ops ∧
   length value_ops = length update_ops ∧
   zip (map decode_key (keys encoding.METRICS_COLLECTION))
       (zip (map decode_tensor_node value_ops)
            (map decode_tensor_node update_ops))
     = attr_eval_metric_ops result).
Proof.
  intros Hkey Hnode (Hr & Hm & Hs & Hi) after keys nodes value_ops update_ops decoded.
  unfold decoded, keys, nodes, value_ops, update_ops, after.
  rewrite !(collection_after_export _ _ _ _ _ _ _ _ _ Hr Hm Hs Hi).
  rewrite <- (adapted_predictions estimator result),
          <- (adapted_eval_metric_ops estimator result).
  repeat split.
  - read_bucket. by rewrite !length_map.
  - read_bucket. by apply decode_nodes.
  - read_bucket. by rewrite !length_map.
  - read_bucket. by apply decode_nodes.
  - read_bucket. by rewrite !length_map.
  - read_bucket. rewrite decode_nodes by done.
    destruct (features r); simpl in Hi; congruence.
  - read_bucket. by rewrite !length_map.
  - read_bucket. by rewrite !length_map.
  - read_bucket. by apply decode_metrics.
Qed.

(** C3 (as amended).  The dispatch has two branches only: every estimator
    that is not an instance of the core [Estimator], whether a contrib
    estimator or an object of any other class, goes through the [else]
    branch exactly as a contrib estimator does; the step raises nothing of
    its own, and fails only when the estimator's model function does. *)
Theorem unrecognized_estimator_takes_legacy_branch
    (estimator : Estimator) (wf wl : TensorTypeMaybeDict) (w : world) :
  class_of estimator ≠ CoreEstimator →
  adapt_model_fn estimator wf wl w
    = adapt_model_fn (with_class ContribEstimator estimator) wf wl w ∧
  match model_fn estimator wf wl EVAL (config estimator) with
  | Returned result =>
      fst (adapt_model_fn estimator wf wl w)
      = Returned (AnEstimatorSpec
                    {| loss := Constant (QArith_base.Qmake 0 1);
                       mode := EVAL;
                       predictions := attr_predictions result;
                       eval_metric_ops := attr_eval_metric_ops result;
                       scaffold := attr_scaffold result |})
  | Raised e => fst (adapt_model_fn estimator wf wl w) = Raised e
  end.
Proof.
  intros Hclass.
  assert (Hisinstance : isinstance_Estimator estimator = false).
  { unfold isinstance_Estimator. by destruct (class_of estimator). }
  split.
  - rewrite !adapt_model_fn_run. unfold adapted. by rewrite Hisinstance.
  - rewrite adapt_model_fn_run. unfold adapted. rewrite Hisinstance.
    by destruct (model_fn _ _ _ _ _).
Qed.

(** C4 (as amended).  In every call the receiver function is the first
    thing called in the fresh graph: when it returns, the global step is
    created and the random seed of the estimator's configuration is set
    right after it; when it raises, neither happens. *)
Theorem receiver_is_called_before_global_step_and_seed
    (estimator : Estimator) (export_dir_base : string)
    (eval_input_receiver_fn : unit → outcome EvalInputReceiver)
    (checkpoint_path : option string) (w : world) :
  let after := snd (export_eval_savedmodel estimator export_dir_base
                      eval_input_receiver_fn checkpoint_path w) in
  match eval_input_receiver_fn tt with
  | Returned _ =>
      ∃ rest, trace after
              = trace w ++ [GraphOpened; ReceiverFnCalled; GlobalStepCreated;
                            RandomSeedSet (tf_random_seed (config estimator))]
                ++ rest
  | Raised _ => trace after = trace w ++ [GraphOpened; ReceiverFnCalled]
  end.
Proof.
  cbv zeta. rewrite export_eval_savedmodel_run. unfold export_summary.
  destruct (eval_input_receiver_fn ()) as [r|e]; cbv zeta.
  - destruct (model_fn _ _ _ _ _) as [result|]; [|simpl].
    + destruct (subscript _ _) as [examples|]; [|simpl].
      * destruct (items_of _) as [feature_items|]; [|simpl].
        -- destruct (no_checkpoint _ _); simpl.
           ++ rewrite trace_tag_nodes. unfold tag_inputs, tag_model.
              rewrite trace_tag_nodes, trace_append_to, trace_tag_nodes,
                trace_tag_metrics, trace_append_to. simpl.
              rewrite <- !app_assoc. by eexists.
           ++ rewrite trace_tag_nodes. unfold tag_inputs, tag_model.
              rewrite trace_tag_nodes, trace_append_to, trace_tag_nodes,
                trace_tag_metrics, trace_append_to. simpl.
              rewrite <- !app_assoc. by eexists.
        -- unfold tag_inputs, tag_model.
           rewrite trace_tag_nodes, trace_append_to, trace_tag_nodes,
             trace_tag_metrics, trace_append_to. simpl.
           rewrite <- !app_assoc. by eexists.
      * unfold tag_model.
        rewrite trace_tag_nodes, trace_tag_metrics, trace_append_to. simpl.
        rewrite <- !app_assoc. by eexists.
    + rewrite <- !app_assoc. by eexists.
  - simpl. by rewrite <- !app_assoc.
Qed.

(** C5.  When no checkpoint path is given and none is found under the
    estimator's model directory, the export raises and no call of the run
    creates, writes or renames anything, so the file system is left as it
    was, without the temporary and without the final directory; as soon as
    the steps before the checkpoint lookup have gone through, what is raised
    is the [ValueError] naming the model directory. *)
Theorem missing_checkpoint_fails_without_directory
    (estimator : Estimator) (export_dir_base : string)
    (eval_input_receiver_fn : unit → outcome EvalInputReceiver)
    (checkpoint_path : option string) (w : world) :
  py_not checkpoint_path = true →
  py_not (latest_checkpoint (model_dir estimator)) = true →
  let run := export_eval_savedmodel estimator export_dir_base
               eval_input_receiver_fn checkpoint_path w in
  (∃ e, fst run = Raised e) ∧
  (∃ calls, trace (snd run) = trace w ++ calls ∧
            Forall (fun e => touches_fs e = false) calls ∧
            ∀ fs0 : gset string, fs_after calls fs0 = fs0) ∧
  (∀ r result examples feature_items,
     graph_built estimator eval_input_receiver_fn r result examples feature_items →
     fst run = Raised (ValueError ("Could not find trained model at " +:+
                                   model_dir estimator +:+ "."))).
Proof.
  intros Hgiven Hlatest run.
  assert (Hno : no_checkpoint estimator checkpoint_path = true)
    by (unfold no_checkpoint; by rewrite Hgiven, Hlatest).
  assert (Hquiet : ∀ calls : list event,
            Forall (fun e => touches_fs e = false) calls →
            ∀ fs0 : gset string, fs_after calls fs0 = fs0).
  { intros calls Hcalls. induction Hcalls as [|e calls He _ IH]; intros fs0; [done|].
    unfold fs_after. simpl. rewrite <- (IH fs0) at 2. by destruct e. }
  split; [|split].
  - unfold run. rewrite export_eval_savedmodel_run. unfold export_summary.
    destruct (eval_input_receiver_fn ()); [|by eexists]. cbv zeta.
    destruct (model_fn _ _ _ _ _); [|by eexists].
    destruct (subscript _ _); [|by eexists].
    destruct (items_of _); [|by eexists].
    rewrite Hno. by eexists.
  - assert (∃ calls, trace (snd run) = trace w ++ calls ∧
                     Forall (fun e => touches_fs e = false) calls)
      as (calls & Htrace & Hcalls); [|by eauto].
    unfold run. rewrite export_eval_savedmodel_run. unfold export_summary.
    destruct (eval_input_receiver_fn ()) as [r|]; cbv zeta;
      [destruct (model_fn _ _ _ _ _) as [result|];
       [destruct (subscript _ _) as [examples|];
        [destruct (items_of _) as [feature_items|]; [rewrite Hno|]|]|]|];
      cbn [snd];
      rewrite ?trace_tag_nodes, ?trace_tag_inputs, ?trace_tag_model;
      unfold record, fresh_graph; cbn [trace];
      rewrite <- !app_assoc; (eexists; split; [done|]); by repeat constructor.
  - intros r result examples feature_items (Hr & Hm & Hs & Hi).
    unfold run. rewrite (export_after_tagging _ _ _ _ _ _ _ _ _ Hr Hm Hs Hi).
    cbv zeta. by rewrite Hno.
Qed.

(** C6.  Once the model function has returned, the predictions bucket holds
    exactly one entry, under the default predictions key, when the
    predictions are a bare tensor, and exactly one entry per item of the
    mapping, in the mapping's order, when they are a mapping; this is so
    whatever happens later in the run. *)
Theorem predictions_registered_once_or_per_entry
    (estimator : Estimator) (export_dir_base : string)
    (eval_input_receiver_fn : unit → outcome EvalInputReceiver)
    (checkpoint_path : option string) (w : world)
    (r : EvalInputReceiver) (result : model_fn_result) :
  eval_input_receiver_fn tt = Returned r →
  model_fn estimator
           (wrap_tensor_or_dict_of_tensors_in_identity (features r))
           (wrap_tensor_or_dict_of_tensors_in_identity (labels r))
           EVAL (config estimator) = Returned result →
  let after := snd (export_eval_savedmodel estimator export_dir_base
                      eval_input_receiver_fn checkpoint_path w) in
  let keys := collection after (slash encoding.PREDICTIONS_COLLECTION
                                      encoding.KEY_SUFFIX) in
  let nodes := collection after (slash encoding.PREDICTIONS_COLLECTION
                                       encoding.NODE_SUFFIX) in
  match attr_predictions result with
  | Tensor t =>
      keys = [encode_key encoding.DEFAULT_PREDICTIONS_DICT_KEY] ∧
      nodes = [encode_tensor_node t]
  | Dict d =>
      length keys = length d ∧ length nodes = length d ∧
      keys = map (fun kv => encode_key (fst kv)) d ∧
      nodes = map (fun kv => encode_tensor_node (snd kv)) d
  end.
Proof.
  intros Hr Hm after keys nodes.
  assert (Hbucket : ∀ name,
    name = slash encoding.PREDICTIONS_COLLECTION encoding.KEY_SUFFIX ∨
    name = slash encoding.PREDICTIONS_COLLECTION encoding.NODE_SUFFIX →
    collection after name
    = node_bucket encoding.PREDICTIONS_COLLECTION
        (entries encoding.DEFAULT_PREDICTIONS_DICT_KEY (attr_predictions result))
        name).
  { intros name Hname. unfold after.
    rewrite export_eval_savedmodel_run. unfold export_summary.
    rewrite Hr. cbv zeta. rewrite Hm.
    rewrite <- (adapted_predictions estimator result).
    unfold tag_inputs, tag_model.
    destruct (subscript _ _); [destruct (items_of _);
                                 [destruct (no_checkpoint _ _)|]|];
      simpl snd;
      rewrite ?collection_record_all, ?collection_tag_nodes,
        ?collection_append_to, ?collection_tag_nodes, ?collection_tag_metrics,
        ?collection_append_to, ?collection_record, ?collection_fresh_graph;
      destruct Hname as [->| ->]; by read_bucket. }
  unfold keys, nodes. rewrite !Hbucket by auto.
  destruct (attr_predictions result) as [t|d]; read_bucket; [done|].
  by rewrite !length_map.
Qed.

(** C7.  When [label_key] is a key of [feature_spec] and [tf.parse_example]
    returns its mapping, with an entry for exactly the keys of the spec, the
    receiver function built by [build_parsing_eval_input_receiver_fn]
    returns a receiver whose [receiver_tensors] maps "examples" to the
    placeholder for the serialized input, whose [features] is the whole
    parsed mapping as returned (the label's entry still in it), and whose
    [labels] is the single tensor that mapping holds at [label_key]. *)
Theorem parsing_receiver_returns_features_and_label
    (feature_spec : list (string * feature_config)) (label_key : string)
    (parsed : list (string * tensor)) :
  label_key ∈ map fst feature_spec →
  let serialized := Placeholder "input_example_tensor" in
  parse_example serialized feature_spec = Returned parsed →
  (∀ key, key ∈ map fst parsed ↔ key ∈ map fst feature_spec) →
  ∃ label,
    build_parsing_eval_input_receiver_fn feature_spec label_key tt
      = Returned {| features := Dict parsed;
                    receiver_tensors := Dict [("examples", serialized)];
                    labels := Tensor label |} ∧
    dict_get label_key parsed = Some label ∧
    label_key ∈ map fst parsed.
Proof.
  intros Hin serialized Hparsed Hkeys.
  assert (Hlabel : label_key ∈ map fst parsed) by (by apply Hkeys).
  destruct (dict_get_is_Some label_key parsed Hlabel) as [label Hget].
  exists label. split; [|done].
  unfold build_parsing_eval_input_receiver_fn. fold serialized.
  by rewrite Hparsed, Hget.
Qed.

(** C8.  For a contrib estimator whose model function returns a
    [ModelFnOps], the adaptation step returns an [EstimatorSpec] in
    evaluation mode whose loss is the constant zero and whose predictions,
    metric ops and scaffold are those of the [ModelFnOps], unchanged. *)
Theorem legacy_spec_carries_model_fn_ops
    (estimator : Estimator) (wf wl : TensorTypeMaybeDict) (w : world)
    (model_fn_ops : ModelFnOps) :
  class_of estimator = ContribEstimator →
  model_fn estimator wf wl EVAL (config estimator)
    = Returned (SomeModelFnOps model_fn_ops) →
  ∃ estimator_spec,
    fst (adapt_model_fn estimator wf wl w)
      = Returned (AnEstimatorSpec estimator_spec) ∧
    loss estimator_spec = Constant (QArith_base.Qmake 0 1) ∧
    mode estimator_spec = EVAL ∧
    predictions estimator_spec = ops_predictions model_fn_ops ∧
    eval_metric_ops estimator_spec = ops_eval_metric_ops model_fn_ops ∧
    scaffold estimator_spec = ops_scaffold model_fn_ops.
Proof.
  intros Hclass Hm. rewrite adapt_model_fn_run, Hm.
  unfold adapted, isinstance_Estimator. rewrite Hclass.
  by eexists.
Qed.

(** C9.  Making a value a mapping is idempotent, leaves a value that is
    already a mapping unchanged, and so keeps the order of its items; this
    holds for any default key, in particular for the predictions and the
    labels keys the exporter uses. *)
Theorem to_mapping_idempotent_and_order_preserving
    (default_key : string) (x : TensorTypeMaybeDict) :
  to_mapping default_key (to_mapping default_key x) = to_mapping default_key x ∧
  (∀ d, to_mapping default_key (Dict d) = Dict d ∧
        entries default_key (Dict d) = d) ∧
  isinstance_dict (to_mapping default_key x) = true ∧
  to_mapping default_key x = Dict (entries default_key x).
Proof. by destruct x. Qed.

(** C10.  Once the graph is built and tagged, the nodes registered in the
    features and labels buckets are the encodings of the tensors the
    receiver returned (the features as they are, the labels made a
    mapping); the model function is called once in the run, on the
    identity-wrapped features and labels, and a wrapped tensor is never the
    tensor it wraps. *)
Theorem original_nodes_registered_wrapped_nodes_to_model
    (estimator : Estimator) (export_dir_base : string)
    (eval_input_receiver_fn : unit → outcome EvalInputReceiver)
    (checkpoint_path : option string) (w : world)
    (r : EvalInputReceiver) (result : model_fn_result) (examples : tensor)
    (feature_items : list (string * tensor)) :
  graph_built estimator eval_input_receiver_fn r result examples feature_items →
  let after := snd (export_eval_savedmodel estimator export_dir_base
                      eval_input_receiver_fn checkpoint_path w) in
  let wrapped (d : list (string * tensor)) :=
    map (fun kv => (fst kv, Identity (snd kv))) d in
  features r = Dict feature_items ∧
  collection after (slash encoding.FEATURES_COLLECTION encoding.NODE_SUFFIX)
    = map (fun kv => encode_tensor_node (snd kv)) feature_items ∧
  collection after (slash encoding.LABELS_COLLECTION encoding.NODE_SUFFIX)
    = map (fun kv => encode_tensor_node (snd kv))
          (entries encoding.DEFAULT_LABELS_DICT_KEY (labels r)) ∧
  (∃ calls,
     trace after = trace w ++ calls ∧
     ModelFnCalled (Dict (wrapped feature_items))
                   (wrap_tensor_or_dict_of_tensors_in_identity (labels r))
                   EVAL ∈ calls ∧
     ∀ f l m, ModelFnCalled f l m ∈ calls →
              f = Dict (wrapped feature_items) ∧
              l = match labels r with
                  | Tensor t => Tensor (Identity t)
                  | Dict d => Dict (wrapped d)
                  end) ∧
  ∀ t, Identity t ≠ t.
Proof.
  intros (Hr & Hm & Hs & Hi) after wrapped.
  assert (Hf : features r = Dict feature_items).
  { destruct (features r); simpl in Hi; congruence. }
  split; [done|].
  unfold after. rewrite !(collection_after_export _ _ _ _ _ _ _ _ _ Hr Hm Hs Hi).
  split; [by read_bucket|]. split; [by read_bucket|]. split.
  - rewrite (export_after_tagging _ _ _ _ _ _ _ _ _ Hr Hm Hs Hi). cbv zeta.
    set (tw := tagged estimator r result examples feature_items w).
    assert (Hcall : ∀ f l m,
              ModelFnCalled f l m ∈ graph_calls estimator r →
              f = Dict (wrapped feature_items) ∧
              l = match labels r with
                  | Tensor t => Tensor (Identity t)
                  | Dict d => Dict (wrapped d)
                  end).
    { intros f l m Hin. unfold graph_calls in Hin. rewrite Hf in Hin.
      repeat (apply elem_of_cons in Hin as [Hin|Hin]; [try discriminate|]);
        [|by apply elem_of_nil in Hin].
      injection Hin as -> -> ->. split; [done|]. by destruct (labels r). }
    assert (Hin : ModelFnCalled (Dict (wrapped feature_items))
                    (wrap_tensor_or_dict_of_tensors_in_identity (labels r))
                    EVAL ∈ graph_calls estimator r).
    { unfold graph_calls. rewrite Hf. simpl.
      do 4 apply list_elem_of_further. apply list_elem_of_here. }
    destruct (no_checkpoint _ _); cbn [snd]; subst tw.
    + exists (graph_calls estimator r). by rewrite (trace_tagged _ _ _ _ _ _).
    + eexists. split; [|split].
      * cbn [trace record_all]. rewrite (trace_tagged _ _ _ _ _ _).
        by rewrite <- app_assoc.
      * apply elem_of_app. by left.
      * intros f l m [Hc|Hc]%elem_of_app; [by apply (Hcall f l m)|].
        exfalso. unfold save_calls in Hc.
        repeat first
          [ apply elem_of_app in Hc as [Hc|Hc]
          | apply elem_of_cons in Hc as [Hc|Hc]; [discriminate|]
          | apply list_elem_of_fmap in Hc as (? & ? & _); discriminate
          | by apply elem_of_nil in Hc ].
  - intros t. induction t; congruence.
Qed.

End Claims.

Lemma export_writes_to_temp_then_renames_witness :
  fst (export_eval_savedmodel (env := Samples.sample_env)
         Samples.core_estimator "/tmp/exports" Samples.sample_receiver_fn None
         initial_world) = Returned "/tmp/exports/1530000000"
  ∧ PosixPath.split (_get_temp_export_dir "/tmp/exports/1530000000")
    = ("/tmp/exports", "temp-1530000000").
Proof.
  assert (H : fst (export_eval_savedmodel (env := Samples.sample_env)
                     Samples.core_estimator "/tmp/exports"
                     Samples.sample_receiver_fn None initial_world)
              = Returned "/tmp/exports/1530000000")
    by (vm_compute; reflexivity).
  split; [exact H|].
  exact (proj1 (proj2 (export_writes_to_temp_then_renames _ _ _ _ _ _ H))).
Defined.

(** ** Concrete runs *)

(** No element of a given list is the one looked for. *)
Ltac refute_elem H :=
  repeat (apply elem_of_cons in H as [H|H]; [discriminate H|]);
  by apply elem_of_nil in H.

Lemma buckets_decode_to_registered_mappings_witness :
  graph_built Samples.contrib_estimator Samples.sample_receiver_fn
              Samples.sample_receiver (SomeModelFnOps Samples.contrib_ops)
              Samples.serialized Samples.sample_features
  ∧ zip (map Samples.decode_key
           (collection
              (snd (export_eval_savedmodel (env := Samples.sample_env)
                      Samples.contrib_estimator "/tmp/exports"
                      Samples.sample_receiver_fn None initial_world))
              "predictions/key"))
        (map Samples.decode_tensor_node
           (collection
              (snd (export_eval_savedmodel (env := Samples.sample_env)
                      Samples.contrib_estimator "/tmp/exports"
                      Samples.sample_receiver_fn None initial_world))
              "predictions/node"))
    = [("classes", GraphNode "classes");
       ("probabilities", GraphNode "probabilities")].
Proof.
  assert (H : graph_built Samples.contrib_estimator Samples.sample_receiver_fn
                Samples.sample_receiver (SomeModelFnOps Samples.contrib_ops)
                Samples.serialized Samples.sample_features)
    by (repeat split; reflexivity).
  split; [exact H|].
  exact (proj2 (proj1
    (buckets_decode_to_registered_mappings (env := Samples.sample_env)
       Samples.decode_key Samples.decode_tensor_node
       Samples.contrib_estimator "/tmp/exports" Samples.sample_receiver_fn
       None initial_world _ _ _ _
       (fun k => eq_refl) (fun t => eq_refl) H))).
Defined.

(** C3, the claim as stated fails: an object that is neither a core nor a
    contrib estimator is not rejected; the adaptation step returns a spec
    for it and the whole export returns its directory. *)
Lemma unrelated_estimator_is_not_rejected :
  class_of Samples.unrelated_estimator ≠ CoreEstimator ∧
  class_of Samples.unrelated_estimator ≠ ContribEstimator ∧
  (¬ ∃ e, fst (adapt_model_fn (env := Samples.sample_env)
                 Samples.unrelated_estimator
                 (wrap_tensor_or_dict_of_tensors_in_identity
                    (features Samples.sample_receiver))
                 (wrap_tensor_or_dict_of_tensors_in_identity
                    (labels Samples.sample_receiver))
                 initial_world) = Raised e) ∧
  fst (export_eval_savedmodel (env := Samples.sample_env)
         Samples.unrelated_estimator "/tmp/exports"
         Samples.sample_receiver_fn None initial_world)
  = Returned "/tmp/exports/1530000000".
Proof.
  split; [done|]. split; [done|]. split.
  - intros [e He]. vm_compute in He. discriminate He.
  - vm_compute. reflexivity.
Qed.

Lemma unrecognized_estimator_takes_legacy_branch_witness :
  class_of Samples.unrelated_estimator ≠ CoreEstimator
  ∧ adapt_model_fn (env := Samples.sample_env) Samples.unrelated_estimator
      (Dict []) (Dict []) initial_world
    = adapt_model_fn (env := Samples.sample_env)
        (with_class ContribEstimator Samples.unrelated_estimator)
        (Dict []) (Dict []) initial_world.
Proof.
  assert (H : class_of Samples.unrelated_estimator ≠ CoreEstimator)
    by (simpl; discriminate).
  split; [exact H|].
  exact (proj1 (unrecognized_estimator_takes_legacy_branch
                  (env := Samples.sample_env) Samples.unrelated_estimator
                  (Dict []) (Dict []) initial_world H)).
Defined.

(** C4, the claim as stated fails: in the trace of a run neither the
    creation of the global step nor the seeding occurs before the call of
    the receiver function; they occur after it. *)
Lemma global_step_and_seed_follow_receiver_call :
  let t := trace (snd (export_eval_savedmodel (env := Samples.sample_env)
                         Samples.core_estimator "/tmp/exports"
                         Samples.sample_receiver_fn None initial_world)) in
  ¬ occurs_before GlobalStepCreated ReceiverFnCalled t ∧
  ¬ occurs_before (RandomSeedSet (tf_random_seed Samples.sample_config))
                  ReceiverFnCalled t ∧
  occurs_before ReceiverFnCalled GlobalStepCreated t ∧
  occurs_before ReceiverFnCalled
                (RandomSeedSet (tf_random_seed Samples.sample_config)) t.
Proof.
  intros t.
  assert (Ht : t = graph_calls (env := Samples.sample_env)
                     Samples.core_estimator Samples.sample_receiver
                   ++ drop 5 t).
  { unfold t.
    rewrite (export_after_tagging (env := Samples.sample_env)
               Samples.core_estimator "/tmp/exports" Samples.sample_receiver_fn
               None initial_world Samples.sample_receiver Samples.bare_result
               Samples.serialized Samples.sample_features
               eq_refl eq_refl eq_refl eq_refl).
    cbv zeta.
    replace (no_checkpoint (env := Samples.sample_env)
               Samples.core_estimator None) with false by reflexivity.
    cbn [snd trace record_all]. rewrite (trace_tagged _ _ _ _ _ _).
    reflexivity. }
  assert (Hrest : ∃ rest, drop 5 t = rest ∧
            Forall (fun e => e ≠ ReceiverFnCalled) rest) .
  { unfold t.
    rewrite (export_after_tagging (env := Samples.sample_env)
               Samples.core_estimator "/tmp/exports" Samples.sample_receiver_fn
               None initial_world Samples.sample_receiver Samples.bare_result
               Samples.serialized Samples.sample_features
               eq_refl eq_refl eq_refl eq_refl).
    cbv zeta.
    replace (no_checkpoint (env := Samples.sample_env)
               Samples.core_estimator None) with false by reflexivity.
    cbn [snd trace record_all]. rewrite (trace_tagged _ _ _ _ _ _).
    eexists. split; [reflexivity|].
    cbn [initial_world trace app graph_calls drop].
    apply Forall_app. split.
    - unfold save_calls. apply Forall_app. split; [by repeat constructor|].
      apply Forall_app. split; [|by repeat constructor].
      apply Forall_forall. by intros e (f & -> & _)%list_elem_of_fmap.
    - by repeat constructor. }
  destruct Hrest as (rest & Hrest & Hnone).
  rewrite Hrest in Ht. clear Hrest. clearbody t. subst t.
  assert (Hnot : ReceiverFnCalled ∉ rest).
  { intros Hin. by apply (proj1 (Forall_forall _ _) Hnone _ Hin). }
  unfold graph_calls. cbn [app].
  split; [|split; [|split]].
  - intros H.
    repeat (apply occurs_before_cons in H as [[Heq Hin]|H];
            [first [discriminate Heq
                   | repeat (apply elem_of_cons in Hin as [Hin|Hin];
                             [discriminate Hin|]); done]|]).
    destruct H as (t1 & t2 & t3 & ->). apply Hnot.
    apply elem_of_app. right. apply list_elem_of_further.
    apply elem_of_app. right. apply list_elem_of_here.
  - intros H.
    repeat (apply occurs_before_cons in H as [[Heq Hin]|H];
            [first [discriminate Heq
                   | repeat (apply elem_of_cons in Hin as [Hin|Hin];
                             [discriminate Hin|]); done]|]).
    destruct H as (t1 & t2 & t3 & ->). apply Hnot.
    apply elem_of_app. right. apply list_elem_of_further.
    apply elem_of_app. right. apply list_elem_of_here.
  - by eexists [GraphOpened], [], _.
  - by eexists [GraphOpened], [GlobalStepCreated], _.
Qed.

Lemma missing_checkpoint_fails_without_directory_witness :
  py_not None = true
  ∧ py_not (latest_checkpoint (Collaborators := Samples.sample_env)
              (model_dir Samples.untrained_estimator)) = true
  ∧ fst (export_eval_savedmodel (env := Samples.sample_env)
           Samples.untrained_estimator "/tmp/exports"
           Samples.sample_receiver_fn None initial_world)
    = Raised (ValueError "Could not find trained model at /models/empty.").
Proof.
  assert (H1 : py_not None = true) by reflexivity.
  assert (H2 : py_not (latest_checkpoint (Collaborators := Samples.sample_env)
                         (model_dir Samples.untrained_estimator)) = true)
    by reflexivity.
  assert (H3 : graph_built Samples.untrained_estimator Samples.sample_receiver_fn
                 Samples.sample_receiver Samples.bare_result
                 Samples.serialized Samples.sample_features)
    by (repeat split; reflexivity).
  split; [exact H1|]. split; [exact H2|].
  exact (proj2 (proj2
    (missing_checkpoint_fails_without_directory (env := Samples.sample_env)
       Samples.untrained_estimator "/tmp/exports" Samples.sample_receiver_fn
       None initial_world H1 H2)) _ _ _ _ H3).
Defined.

Lemma predictions_registered_once_or_per_entry_witness :
  Samples.sample_receiver_fn tt = Returned Samples.sample_receiver
  ∧ collection
      (snd (export_eval_savedmodel (env := Samples.sample_env)
              Samples.core_estimator "/tmp/exports"
              Samples.sample_receiver_fn None initial_world))
      "predictions/key"
    = [Samples.EncodedKey "predictions"]
  ∧ collection
      (snd (export_eval_savedmodel (env := Samples.sample_env)
              Samples.core_estimator "/tmp/exports"
              Samples.sample_receiver_fn None initial_world))
      "predictions/node"
    = [Samples.EncodedNode (GraphNode "logits")].
Proof.
  assert (H1 : Samples.sample_receiver_fn tt = Returned Samples.sample_receiver)
    by reflexivity.
  assert (H2 : model_fn Samples.core_estimator
                 (wrap_tensor_or_dict_of_tensors_in_identity
                    (features Samples.sample_receiver))
                 (wrap_tensor_or_dict_of_tensors_in_identity
                    (labels Samples.sample_receiver))
                 EVAL (config Samples.core_estimator)
               = Returned Samples.bare_result) by reflexivity.
  split; [exact H1|].
  exact (predictions_registered_once_or_per_entry (env := Samples.sample_env)
           Samples.core_estimator "/tmp/exports" Samples.sample_receiver_fn
           None initial_world _ _ H1 H2).
Defined.

Lemma parsing_receiver_returns_features_and_label_witness :
  "label" ∈ map fst Samples.sample_feature_spec
  ∧ ∃ label,
      Samples.sample_receiver_fn tt
        = Returned {| features := Dict Samples.sample_features;
                      receiver_tensors :=
                        Dict [("examples", Placeholder "input_example_tensor")];
                      labels := Tensor label |} ∧
      dict_get "label" Samples.sample_features = Some label ∧
      "label" ∈ map fst Samples.sample_features.
Proof.
  assert (H1 : "label" ∈ map fst Samples.sample_feature_spec).
  { simpl. apply list_elem_of_further. apply list_elem_of_here. }
  assert (H2 : parse_example (Collaborators := Samples.sample_env)
                 (Placeholder "input_example_tensor")
                 Samples.sample_feature_spec
               = Returned Samples.sample_features) by reflexivity.
  assert (H3 : ∀ key, key ∈ map fst Samples.sample_features
                      ↔ key ∈ map fst Samples.sample_feature_spec)
    by (intros key; simpl; reflexivity).
  split; [exact H1|].
  exact (parsing_receiver_returns_features_and_label
           (env := Samples.sample_env)
           Samples.sample_feature_spec "label" Samples.sample_features
           H1 H2 H3).
Defined.

Lemma legacy_spec_carries_model_fn_ops_witness :
  class_of Samples.contrib_estimator = ContribEstimator
  ∧ ∃ estimator_spec,
      fst (adapt_model_fn (env := Samples.sample_env) Samples.contrib_estimator
             (Dict []) (Dict []) initial_world)
        = Returned (AnEstimatorSpec estimator_spec) ∧
      loss estimator_spec = Constant (QArith_base.Qmake 0 1) ∧
      mode estimator_spec = EVAL ∧
      predictions estimator_spec = ops_predictions Samples.contrib_ops ∧
      eval_metric_ops estimator_spec = ops_eval_metric_ops Samples.contrib_ops ∧
      scaffold estimator_spec = ops_scaffold Samples.contrib_ops.
Proof.
  assert (H1 : class_of Samples.contrib_estimator = ContribEstimator)
    by reflexivity.
  assert (H2 : model_fn Samples.contrib_estimator (Dict []) (Dict []) EVAL
                 (config Samples.contrib_estimator)
               = Returned (SomeModelFnOps Samples.contrib_ops)) by reflexivity.
  split; [exact H1|].
  exact (legacy_spec_carries_model_fn_ops (env := Samples.sample_env)
           Samples.contrib_estimator (Dict []) (Dict []) initial_world
           Samples.contrib_ops H1 H2).
Defined.

Lemma original_nodes_registered_wrapped_nodes_to_model_witness :
  graph_built Samples.core_estimator Samples.sample_receiver_fn
              Samples.sample_receiver Samples.bare_result
              Samples.serialized Samples.sample_features
  ∧ collection
      (snd (export_eval_savedmodel (env := Samples.sample_env)
              Samples.core_estimator "/tmp/exports"
              Samples.sample_receiver_fn None initial_world))
      "features/node"
    = [Samples.EncodedNode (ParsedFeature Samples.serialized "f1");
       Samples.EncodedNode (ParsedFeature Samples.serialized "label")].
Proof.
  assert (H : graph_built Samples.core_estimator Samples.sample_receiver_fn
                Samples.sample_receiver Samples.bare_result
                Samples.serialized Samples.sample_features)
    by (repeat split; reflexivity).
  split; [exact H|].
  exact (proj1 (proj2
    (original_nodes_registered_wrapped_nodes_to_model (env := Samples.sample_env)
       Samples.core_estimator "/tmp/exports" Samples.sample_receiver_fn
       None initial_world _ _ _ _ H))).
Defined.

(* ===================================================================== *)
(** * Further properties of the exporter *)
(* ===================================================================== *)

Section MoreFacts.

Context `{env : Collaborators}.

Import PosixPath.

#[local] Arguments String.append !_ _ : simpl nomatch.

Lemma strip_prefix_app (a r : string) : strip_prefix a (a +:+ r) = Some r.
Proof.
  induction a as [|c a IH]; simpl; [by destruct r|].
  by rewrite bool_decide_eq_true_2.
Qed.

Lemma strip_prefix_inv (a s r : string) :
  strip_prefix a s = Some r → s = a +:+ r.
Proof.
  revert s. induction a as [|c a IH]; intros s; simpl.
  - destruct s; by intros [= ->].
  - destruct s as [|c' s]; [done|]. case_bool_decide; [|done].
    subst c'. intros H. simpl. f_equal. by apply IH.
Qed.

(** A path under the renamed directory lands under the new name. *)
Lemma moved_below (src dst rest : string) :
  moved src dst (slash src rest) = slash dst rest.
Proof. unfold moved, slash. by rewrite strip_prefix_app. Qed.

(** Whatever a path is moved to by renaming [src] to [dst], it is under
    [src] no more, provided [dst] itself is not. *)
Lemma moved_not_under_src (src dst p : string) :
  (∀ q, under dst q → ¬ under src q) → ¬ under src (moved src dst p).
Proof.
  intros Hdisj. unfold moved.
  destruct (strip_prefix src p) as [[|c rest]|] eqn:E.
  - apply Hdisj. by left.
  - apply strip_prefix_inv in E. destruct (is_sep c) eqn:Hc.
    + apply is_sep_true in Hc. subst c. apply Hdisj. right. by exists rest.
    + subst p. intros [Heq|[r Heq]].
      * apply (f_equal String.length) in Heq. rewrite str_app_length in Heq.
        simpl in Heq. lia.
      * apply (inj (String.app src)) in Heq. simpl in Heq.
        injection Heq as -> _. done.
  - intros [->|[r ->]].
    + by rewrite strip_prefix_self in E.
    + by rewrite strip_prefix_app in E.
Qed.

Lemma fs_after_quiet (calls : list event) (fs0 : gset string) :
  Forall (fun e => touches_fs e = false) calls → fs_after calls fs0 = fs0.
Proof.
  intros Hcalls. revert fs0.
  induction Hcalls as [|e calls He _ IH]; intros fs0; [done|].
  unfold fs_after. simpl. rewrite <- (IH fs0) at 2. by destruct e.
Qed.

Lemma fs_after_written dir (es : list event) (fs : gset string) (p : string) :
  Forall (writes_only_under dir) es → FileWritten p ∈ es → p ∈ fs_after es fs.
Proof.
  intros Hes. revert fs. induction Hes as [|e es He Hes IH]; intros fs Hin.
  - by apply elem_of_nil in Hin.
  - unfold fs_after. simpl. apply elem_of_cons in Hin as [<-|Hin].
    + apply (fs_after_keeps dir); [done|]. simpl. set_solver.
    + by apply IH.
Qed.

(** The collections of the tagged world beyond the exporter's buckets. *)
Lemma no_assets_registered spec r examples feature_items :
  registered spec r examples feature_items constants.ASSET_FILEPATHS = [].
Proof. by read_bucket. Qed.

(** The calls of a run that returns. *)
Lemma returning_run_trace estimator export_dir_base eval_input_receiver_fn
    checkpoint_path (w : world) r result examples feature_items :
  graph_built estimator eval_input_receiver_fn r result examples feature_items →
  no_checkpoint estimator checkpoint_path = false →
  let final := get_timestamped_dir export_dir_base in
  let temp := _get_temp_export_dir final in
  trace (snd (export_eval_savedmodel estimator export_dir_base
                eval_input_receiver_fn checkpoint_path w))
  = trace w
    ++ (graph_calls estimator r
        ++ save_calls estimator (adapted estimator result)
             (checkpoint_used estimator checkpoint_path) temp [])
    ++ [Renamed temp final; SessionClosed].
Proof.
  intros (Hr & Hm & Hs & Hi) Hc final temp.
  rewrite (export_after_tagging _ _ _ _ _ _ _ _ _ Hr Hm Hs Hi), Hc. cbv zeta.
  cbn [snd trace record_all].
  rewrite (trace_tagged _ _ _ _ _ _).
  rewrite (collection_tagged _ _ _ _ _ _), no_assets_registered.
  by rewrite <- !app_assoc.
Qed.

(** What the calls of lines 212-238 consist of. *)
Lemma save_calls_inv estimator spec checkpoint temp assets (e : event) :
  e ∈ save_calls estimator spec checkpoint temp assets →
  e = SessionOpened (chosen_session_config estimator) ∨
  e = CheckpointRestored (saver_for_restore spec) checkpoint ∨
  e = DirCreated temp ∨
  e = MetaGraphAdded [constants.EVAL_SAVED_MODEL_TAG] assets
                     (chosen_local_init_op spec) ∨
  ∃ p, e = FileWritten p.
Proof.
  unfold save_calls. intros H.
  apply elem_of_app in H as [H|H].
  - repeat (apply elem_of_cons in H as [H|H]; [by auto 6|]).
    by apply elem_of_nil in H.
  - do 4 right. apply elem_of_app in H as [H|H].
    + apply list_elem_of_fmap in H as (f & -> & _). by eexists.
    + apply elem_of_cons in H as [->|H]; [by eexists|]. by apply elem_of_nil in H.
Qed.

(** Worlds with the same collections stay so under the tagging steps. *)
Lemma collections_append_to name value (w1 w2 : world) :
  collections w1 = collections w2 →
  collections (append_to name value w1) = collections (append_to name value w2).
Proof. intros H. unfold append_to, collection. simpl. by rewrite H. Qed.

Lemma collections_tag_nodes prefix xs (w1 w2 : world) :
  collections w1 = collections w2 →
  collections (foldl (tag_node prefix) w1 xs)
  = collections (foldl (tag_node prefix) w2 xs).
Proof.
  revert w1 w2. induction xs as [|x xs IH]; intros w1 w2 H; [done|].
  simpl. apply IH. unfold tag_node. by do 2 apply collections_append_to.
Qed.

Lemma collections_tag_metrics ms (w1 w2 : world) :
  collections w1 = collections w2 →
  collections (foldl tag_metric w1 ms) = collections (foldl tag_metric w2 ms).
Proof.
  revert w1 w2. induction ms as [|x xs IH]; intros w1 w2 H; [done|].
  simpl. apply IH. unfold tag_metric. by do 3 apply collections_append_to.
Qed.

Lemma collections_tag_model spec (w1 w2 : world) :
  collections w1 = collections w2 →
  collections (tag_model spec w1) = collections (tag_model spec w2).
Proof.
  intros H. unfold tag_model.
  by apply collections_tag_nodes, collections_tag_metrics, collections_append_to.
Qed.

Lemma collections_tag_inputs examples r (w1 w2 : world) :
  collections w1 = collections w2 →
  collections (tag_inputs examples r w1) = collections (tag_inputs examples r w2).
Proof.
  intros H. unfold tag_inputs.
  by apply collections_tag_nodes, collections_append_to.
Qed.

Lemma dict_get_elem {V : Type} (key : string) (d : list (string * V)) (v : V) :
  dict_get key d = Some v → (key, v) ∈ d.
Proof.
  induction d as [|[k x] d IH]; simpl; [done|].
  destruct (String.eqb k key) eqn:E.
  - apply String.eqb_eq in E as ->. intros [= ->]. apply list_elem_of_here.
  - intros H. apply list_elem_of_further. by apply IH.
Qed.

(** Once the directory created under its temporary name is renamed, the
    final name exists. *)
Lemma final_exists_after_rename temp final (pre : list event) (fs0 : gset string) :
  Forall (writes_only_under temp) pre → DirCreated temp ∈ pre →
  final ∈ fs_after (pre ++ [Renamed temp final; SessionClosed]) fs0.
Proof.
  intros Hpre Hin. rewrite fs_after_app.
  set (fs1 := fs_after pre fs0).
  change (final ∈ (set_map (moved temp final) fs1 : gset string)).
  apply elem_of_map. exists temp. split; [by rewrite moved_self|].
  by apply (fs_after_creates temp).
Qed.

Lemma save_calls_shape estimator spec checkpoint temp assets :
  save_calls estimator spec checkpoint temp assets
  = [SessionOpened (chosen_session_config estimator);
     CheckpointRestored (saver_for_restore spec) checkpoint;
     DirCreated temp;
     MetaGraphAdded [constants.EVAL_SAVED_MODEL_TAG] assets
                    (chosen_local_init_op spec)]
    ++ builder_writes temp.
Proof. reflexivity. Qed.

Lemma builder_writes_inv temp (e : event) :
  e ∈ builder_writes temp → ∃ p, e = FileWritten p.
Proof.
  unfold builder_writes. intros [H|H]%elem_of_app.
  - apply list_elem_of_fmap in H as (f & -> & _). by eexists.
  - apply elem_of_cons in H as [->|H]; [by eexists|]. by apply elem_of_nil in H.
Qed.

End MoreFacts.


Section Extras.

Context `{env : Collaborators}.

Import PosixPath.

#[local] Arguments String.append !_ _ : simpl nomatch.

(** X1.  [_encode_and_add_to_node_collection] never raises; it appends the
    encoded key to the KEY bucket of the prefix and the encoded node to its
    NODE bucket, at the end of what they held, and leaves every other
    collection and the trace as they were, whatever the prefix is. *)
Theorem encode_and_add_appends_one_key_and_one_node
    (collection_prefix key : string) (node : tensor) (w : world) :
  let run := _encode_and_add_to_node_collection collection_prefix key node w in
  fst run = Returned tt ∧
  trace (snd run) = trace w ∧
  collection (snd run) (slash collection_prefix encoding.KEY_SUFFIX)
    = collection w (slash collection_prefix encoding.KEY_SUFFIX)
      ++ [encode_key key] ∧
  collection (snd run) (slash collection_prefix encoding.NODE_SUFFIX)
    = collection w (slash collection_prefix encoding.NODE_SUFFIX)
      ++ [encode_tensor_node node] ∧
  ∀ name, name ≠ slash collection_prefix encoding.KEY_SUFFIX →
          name ≠ slash collection_prefix encoding.NODE_SUFFIX →
          collection (snd run) name = collection w name.
Proof.
  assert (Hne : slash collection_prefix encoding.KEY_SUFFIX
                ≠ slash collection_prefix encoding.NODE_SUFFIX)
    by (by intros ?%slash_inj).
  cbv zeta. unfold _encode_and_add_to_node_collection.
  rewrite run_bind, add_to_collection_run. cbv beta iota.
  rewrite add_to_collection_run. cbn [fst snd].
  split; [done|]. split; [done|].
  rewrite !collection_append_to.
  split; [|split].
  - rewrite at_name_eq, at_name_ne by done. by rewrite app_nil_r.
  - rewrite at_name_eq, at_name_ne by done. by rewrite app_nil_r.
  - intros name Hk Hn. rewrite !collection_append_to.
    rewrite !at_name_ne by done. by rewrite !app_nil_r.
Qed.

(** X2.  For a path made of a base that is empty, all separators, or does
    not end with a separator, joined with a leaf that holds no separator,
    [_get_temp_export_dir] gives the base joined with the leaf prefixed by
    "temp-": /foo/bar/<leaf> becomes /foo/bar/temp-<leaf>, as the docstring
    says, and a path ending with a separator (empty leaf) gets the bare leaf
    "temp-". *)
Theorem temp_export_dir_of_joined_path (base leaf : string) :
  normal_head base → has_sep leaf = false →
  _get_temp_export_dir (join base leaf) = join base ("temp-" +:+ leaf).
Proof.
  intros Hbase Hleaf. unfold _get_temp_export_dir.
  by rewrite (split_join base leaf Hbase Hleaf).
Qed.


(** X4.  After a run that returns, whatever the file system held before:
    the final directory exists and holds the graph file and every variable
    file the builder wrote, and nothing is left at or below the temporary
    directory. *)
Theorem returned_export_lies_under_final_path
    (estimator : Estimator) (export_dir_base : string)
    (eval_input_receiver_fn : unit → outcome EvalInputReceiver)
    (checkpoint_path : option string) (w : world) (d : string) :
  fst (export_eval_savedmodel estimator export_dir_base eval_input_receiver_fn
                              checkpoint_path w) = Returned d →
  let temp := _get_temp_export_dir d in
  ∃ calls,
    trace (snd (export_eval_savedmodel estimator export_dir_base
                  eval_input_receiver_fn checkpoint_path w))
      = trace w ++ calls ∧
    ∀ fs0 : gset string,
      d ∈ fs_after calls fs0 ∧
      slash d constants.SAVED_MODEL_FILENAME_PB ∈ fs_after calls fs0 ∧
      (∀ f, f ∈ variables_files → slash d f ∈ fs_after calls fs0) ∧
      ¬ visible (fs_after calls fs0) temp.
Proof.
  intros Hret temp.
  destruct (export_returns_inv _ _ _ _ _ _ Hret)
    as (r & result & examples & feature_items & Hr & Hm & Hs & Hi & Hc & Hd).
  assert (Hb : graph_built estimator eval_input_receiver_fn r result examples
                 feature_items) by done.
  rewrite (returning_run_trace _ export_dir_base _ _ w _ _ _ _ Hb Hc). cbv zeta.
  rewrite <- Hd. fold temp.
  set (pre := graph_calls estimator r
              ++ save_calls estimator (adapted estimator result)
                   (checkpoint_used estimator checkpoint_path) temp []).
  assert (Hpre : Forall (writes_only_under temp) pre)
    by apply run_writes_under_temp.
  exists (pre ++ [Renamed temp d; SessionClosed]). split; [done|].
  intros fs0. rewrite fs_after_app.
  set (fs1 := fs_after pre fs0).
  change (fs_after [Renamed temp d; SessionClosed] fs1)
    with (set_map (moved temp d) fs1 : gset string).
  assert (Hsaved : ∀ e, e ∈ save_calls estimator (adapted estimator result)
                          (checkpoint_used estimator checkpoint_path) temp []
                        → e ∈ pre).
  { intros e He. apply elem_of_app. by right. }
  split; [|split; [|split]].
  - apply elem_of_map. exists temp. split; [by rewrite moved_self|].
    apply (fs_after_creates temp); [done|]. apply Hsaved.
    unfold save_calls. simpl. do 2 apply list_elem_of_further.
    apply list_elem_of_here.
  - apply elem_of_map. exists (slash temp constants.SAVED_MODEL_FILENAME_PB).
    split; [by rewrite moved_below|].
    apply (fs_after_written temp); [done|]. apply Hsaved.
    unfold save_calls. apply elem_of_app. right. apply elem_of_app. right.
    apply list_elem_of_here.
  - intros f Hf. apply elem_of_map. exists (slash temp f).
    split; [by rewrite moved_below|].
    apply (fs_after_written temp); [done|]. apply Hsaved.
    unfold save_calls. apply elem_of_app. right. apply elem_of_app. left.
    apply list_elem_of_fmap. by exists f.
  - intros (q & Hq & Hu). apply elem_of_map in Hq as (p & -> & _).
    revert Hu. apply moved_not_under_src.
    intros q Hfinal Htemp. by apply (temp_final_disjoint d q).
Qed.

(** X5.  When the receiver function raises, the export raises the same
    error at once: the graph has been opened and the receiver called, and
    no other call has been made; no global step, no call of the model
    function, and the exporter has added nothing to any of its buckets. *)
Theorem receiver_error_aborts_export
    (estimator : Estimator) (export_dir_base : string)
    (eval_input_receiver_fn : unit → outcome EvalInputReceiver)
    (checkpoint_path : option string) (w : world) (e : exception) :
  eval_input_receiver_fn tt = Raised e →
  let run := export_eval_savedmodel estimator export_dir_base
               eval_input_receiver_fn checkpoint_path w in
  fst run = Raised e ∧
  trace (snd run) = trace w ++ [GraphOpened; ReceiverFnCalled] ∧
  ∀ name, name ∈ bucket_names → collection (snd run) name = [].
Proof.
  intros Hr run. unfold run.
  rewrite export_eval_savedmodel_run. unfold export_summary. rewrite Hr.
  cbn [fst snd]. split; [done|]. split.
  - simpl. by rewrite <- app_assoc.
  - intros name _. by rewrite collection_record, collection_fresh_graph.
Qed.

(** X6.  When the model function raises, the export raises the same error;
    by then the receiver has been called, the global step created, the seed
    set and the model function called once on the wrapped features and
    labels, and the exporter has added nothing to any of its buckets, not
    even the version marker. *)
Theorem model_fn_error_aborts_export
    (estimator : Estimator) (export_dir_base : string)
    (eval_input_receiver_fn : unit → outcome EvalInputReceiver)
    (checkpoint_path : option string) (w : world)
    (r : EvalInputReceiver) (e : exception) :
  eval_input_receiver_fn tt = Returned r →
  model_fn estimator
           (wrap_tensor_or_dict_of_tensors_in_identity (features r))
           (wrap_tensor_or_dict_of_tensors_in_identity (labels r))
           EVAL (config estimator) = Raised e →
  let run := export_eval_savedmodel estimator export_dir_base
               eval_input_receiver_fn checkpoint_path w in
  fst run = Raised e ∧
  trace (snd run)
    = trace w ++ [GraphOpened; ReceiverFnCalled; GlobalStepCreated;
                  RandomSeedSet (tf_random_seed (config estimator));
                  ModelFnCalled
                    (wrap_tensor_or_dict_of_tensors_in_identity (features r))
                    (wrap_tensor_or_dict_of_tensors_in_identity (labels r))
                    EVAL] ∧
  ∀ name, name ∈ bucket_names → collection (snd run) name = [].
Proof.
  intros Hr Hm run. unfold run.
  rewrite export_eval_savedmodel_run. unfold export_summary. rewrite Hr.
  cbv zeta. rewrite Hm. cbn [fst snd]. split; [done|]. split.
  - simpl. by rewrite <- !app_assoc.
  - intros name _. by rewrite !collection_record, collection_fresh_graph.
Qed.

(** X7.  When the receiver tensors are a dict without the key "examples",
    the export raises [KeyError "examples"]; the version marker is already
    registered, but the input example, the labels and the features are
    not, and the model function has been called. *)
Theorem missing_examples_key_raises_key_error
    (estimator : Estimator) (export_dir_base : string)
    (eval_input_receiver_fn : unit → outcome EvalInputReceiver)
    (checkpoint_path : option string) (w : world)
    (r : EvalInputReceiver) (result : model_fn_result)
    (tensors : list (string * tensor)) :
  eval_input_receiver_fn tt = Returned r →
  model_fn estimator
           (wrap_tensor_or_dict_of_tensors_in_identity (features r))
           (wrap_tensor_or_dict_of_tensors_in_identity (labels r))
           EVAL (config estimator) = Returned result →
  receiver_tensors r = Dict tensors →
  dict_get "examples" tensors = None →
  let run := export_eval_savedmodel estimator export_dir_base
               eval_input_receiver_fn checkpoint_path w in
  fst run = Raised (KeyError "examples") ∧
  trace (snd run) = trace w ++ graph_calls estimator r ∧
  collection (snd run) encoding.TFMA_VERSION_COLLECTION = [VERSION_STRING] ∧
  collection (snd run) encoding.INPUT_EXAMPLE_COLLECTION = [] ∧
  (∀ suffix, collection (snd run) (slash encoding.LABELS_COLLECTION suffix) = []) ∧
  (∀ suffix, collection (snd run) (slash encoding.FEATURES_COLLECTION suffix) = []).
Proof.
  intros Hr Hm Ht Hget run. unfold run.
  rewrite export_eval_savedmodel_run. unfold export_summary.
  rewrite Hr. cbv zeta. rewrite Hm, Ht. unfold subscript. rewrite Hget.
  cbn [fst snd]. split; [done|].
  rewrite trace_tag_model. split.
  { unfold record, fresh_graph, graph_calls. cbn [trace].
    by rewrite <- !app_assoc. }
  unfold tag_model.
  repeat split; try intros suffix;
    rewrite collection_tag_nodes, collection_tag_metrics, collection_append_to,
      !collection_record, collection_fresh_graph;
    by read_bucket.
Qed.

(** X8.  When the receiver returns its features as a single tensor, the
    export raises an [AttributeError] at the loop over the features: by
    then the model function has been called on the wrapped tensor and the
    input example and the labels are registered, while the features
    buckets stay empty. *)
Theorem bare_tensor_features_raise_attribute_error
    (estimator : Estimator) (export_dir_base : string)
    (eval_input_receiver_fn : unit → outcome EvalInputReceiver)
    (checkpoint_path : option string) (w : world)
    (r : EvalInputReceiver) (result : model_fn_result)
    (examples feature : tensor) :
  eval_input_receiver_fn tt = Returned r →
  features r = Tensor feature →
  model_fn estimator (Tensor (Identity feature))
           (wrap_tensor_or_dict_of_tensors_in_identity (labels r))
           EVAL (config estimator) = Returned result →
  subscript (receiver_tensors r) "examples" = Returned examples →
  let run := export_eval_savedmodel estimator export_dir_base
               eval_input_receiver_fn checkpoint_path w in
  fst run = Raised (AttributeError "'Tensor' object has no attribute 'items'") ∧
  trace (snd run) = trace w ++ graph_calls estimator r ∧
  collection (snd run) encoding.INPUT_EXAMPLE_COLLECTION
    = [encode_tensor_node examples] ∧
  collection (snd run) (slash encoding.LABELS_COLLECTION encoding.NODE_SUFFIX)
    = map (fun kv => encode_tensor_node (snd kv))
          (entries encoding.DEFAULT_LABELS_DICT_KEY (labels r)) ∧
  (∀ suffix, collection (snd run) (slash encoding.FEATURES_COLLECTION suffix) = []).
Proof.
  intros Hr Hf Hm Hs run. unfold run.
  rewrite export_eval_savedmodel_run. unfold export_summary.
  rewrite Hr. cbv zeta. rewrite Hf. cbn [wrap_tensor_or_dict_of_tensors_in_identity].
  rewrite Hm, Hs. cbn [items_of fst snd]. split; [done|].
  rewrite trace_tag_inputs, trace_tag_model. split.
  { unfold record, fresh_graph, graph_calls. cbn [trace]. rewrite Hf.
    by rewrite <- !app_assoc. }
  unfold tag_inputs, tag_model.
  repeat split; try intros suffix;
    rewrite collection_tag_nodes, collection_append_to, collection_tag_nodes,
      collection_tag_metrics, collection_append_to,
      !collection_record, collection_fresh_graph;
    by read_bucket.
Qed.

(** X9.  In a run that returns, the checkpoint is restored exactly once:
    from the path given when a non-empty one is given, whatever the model
    directory holds, and otherwise from the latest checkpoint of the model
    directory; with the saver of the model's scaffold when it has one and
    with a new sharded saver otherwise. *)
Theorem restore_uses_given_or_latest_checkpoint
    (estimator : Estimator) (export_dir_base : string)
    (eval_input_receiver_fn : unit → outcome EvalInputReceiver)
    (checkpoint_path : option string) (w : world) (d : string)
    (r : EvalInputReceiver) (result : model_fn_result) (examples : tensor)
    (feature_items : list (string * tensor)) (path : string) :
  fst (export_eval_savedmodel estimator export_dir_base eval_input_receiver_fn
                              checkpoint_path w) = Returned d →
  graph_built estimator eval_input_receiver_fn r result examples feature_items →
  path ≠ "" →
  checkpoint_path = Some path ∨
  (py_not checkpoint_path = true ∧
   latest_checkpoint (model_dir estimator) = Some path) →
  let after := snd (export_eval_savedmodel estimator export_dir_base
                      eval_input_receiver_fn checkpoint_path w) in
  let chosen_saver :=
    match attr_scaffold result with
    | Some {| saver := Some s |} => s
    | _ => NewSaver true
    end in
  ∃ before later,
    trace after
      = trace w ++ before ++ CheckpointRestored chosen_saver path :: later ∧
    ∀ s p, (CheckpointRestored s p ∉ before) ∧ (CheckpointRestored s p ∉ later).
Proof.
  intros _ Hb Hpath Hsource after chosen_saver.
  assert (Hnot : py_not (Some path) = false) by (by destruct path).
  assert (Hc : no_checkpoint estimator checkpoint_path = false).
  { unfold no_checkpoint. destruct Hsource as [->|[-> ->]]; by rewrite Hnot. }
  assert (Hused : checkpoint_used estimator checkpoint_path = path).
  { unfold checkpoint_used. destruct Hsource as [->|[-> ->]]; by rewrite ?Hnot. }
  assert (Hsaver : saver_for_restore (adapted estimator result) = chosen_saver).
  { unfold saver_for_restore. by rewrite adapted_scaffold. }
  unfold after.
  rewrite (returning_run_trace _ export_dir_base _ _ w _ _ _ _ Hb Hc). cbv zeta.
  rewrite Hused, save_calls_shape, Hsaver.
  set (temp := _get_temp_export_dir (get_timestamped_dir export_dir_base)).
  exists (graph_calls estimator r
          ++ [SessionOpened (chosen_session_config estimator)]),
         ([DirCreated temp;
           MetaGraphAdded [constants.EVAL_SAVED_MODEL_TAG] []
                          (chosen_local_init_op (adapted estimator result))]
          ++ builder_writes temp
          ++ [Renamed temp (get_timestamped_dir export_dir_base); SessionClosed]).
  split.
  { rewrite <- ?app_assoc. cbn [app]. by rewrite <- ?app_assoc. }
  intros s p. split.
  - intros [Hin|Hin]%elem_of_app.
    + unfold graph_calls in Hin. refute_elem Hin.
    + refute_elem Hin.
  - intros [Hin|[Hin|Hin]%elem_of_app]%elem_of_app.
    + refute_elem Hin.
    + by apply builder_writes_inv in Hin as [q Hin].
    + refute_elem Hin.
Qed.

(** X10.  An empty string given as [checkpoint_path] is treated exactly as
    no path at all: the whole run, outcome and world, is the same. *)
Theorem empty_checkpoint_path_is_no_checkpoint_path
    (estimator : Estimator) (export_dir_base : string)
    (eval_input_receiver_fn : unit → outcome EvalInputReceiver) (w : world) :
  export_eval_savedmodel estimator export_dir_base eval_input_receiver_fn
                         (Some "") w
  = export_eval_savedmodel estimator export_dir_base eval_input_receiver_fn
                           None w.
Proof. by rewrite !export_eval_savedmodel_run. Qed.

(** X11.  The export returns only when the receiver and the model function
    have returned, the receiver tensors hold "examples", the features are a
    dict, and a checkpoint was given or found; what it returns is the
    timestamped directory. *)
Theorem export_returns_only_if
    (estimator : Estimator) (export_dir_base : string)
    (eval_input_receiver_fn : unit → outcome EvalInputReceiver)
    (checkpoint_path : option string) (w : world) (d : string) :
  fst (export_eval_savedmodel estimator export_dir_base eval_input_receiver_fn
                              checkpoint_path w) = Returned d →
  (∃ r result examples feature_items,
     graph_built estimator eval_input_receiver_fn r result examples
                 feature_items) ∧
  (py_not checkpoint_path = false ∨
   py_not (latest_checkpoint (model_dir estimator)) = false) ∧
  d = get_timestamped_dir export_dir_base.
Proof.
  intros (r & result & examples & feature_items & Hr & Hm & Hs & Hi & Hc & ->)
    %export_returns_inv.
  split; [by exists r, result, examples, feature_items|]. split; [|done].
  unfold no_checkpoint in Hc. apply andb_false_iff in Hc. tauto.
Qed.

(** X12.  Once the graph is built and tagged, the version bucket holds the
    version string, once and nothing else, and the input example bucket
    holds the one encoded placeholder found at "examples", whatever the
    checkpoint step does afterwards. *)
Theorem version_and_input_example_registered_once
    (estimator : Estimator) (export_dir_base : string)
    (eval_input_receiver_fn : unit → outcome EvalInputReceiver)
    (checkpoint_path : option string) (w : world)
    (r : EvalInputReceiver) (result : model_fn_result) (examples : tensor)
    (feature_items : list (string * tensor)) :
  graph_built estimator eval_input_receiver_fn r result examples feature_items →
  let after := snd (export_eval_savedmodel estimator export_dir_base
                      eval_input_receiver_fn checkpoint_path w) in
  collection after encoding.TFMA_VERSION_COLLECTION = [VERSION_STRING] ∧
  collection after encoding.INPUT_EXAMPLE_COLLECTION
    = [encode_tensor_node examples].
Proof.
  intros (Hr & Hm & Hs & Hi) after. unfold after.
  rewrite !(collection_after_export _ _ _ _ _ _ _ _ _ Hr Hm Hs Hi).
  split; by read_bucket.
Qed.

(** X13.  Nothing of an earlier graph leaks into an export: the outcome of
    a run and the collections it leaves do not depend on the collections or
    the trace of the world it starts from. *)
Theorem export_starts_from_a_fresh_graph
    (estimator : Estimator) (export_dir_base : string)
    (eval_input_receiver_fn : unit → outcome EvalInputReceiver)
    (checkpoint_path : option string) (w1 w2 : world) :
  fst (export_eval_savedmodel estimator export_dir_base eval_input_receiver_fn
                              checkpoint_path w1)
  = fst (export_eval_savedmodel estimator export_dir_base
           eval_input_receiver_fn checkpoint_path w2) ∧
  collections (snd (export_eval_savedmodel estimator export_dir_base
                      eval_input_receiver_fn checkpoint_path w1))
  = collections (snd (export_eval_savedmodel estimator export_dir_base
                        eval_input_receiver_fn checkpoint_path w2)).
Proof.
  rewrite !export_eval_savedmodel_run. unfold export_summary.
  destruct (eval_input_receiver_fn ()) as [r|]; cbv zeta; [|done].
  destruct (model_fn _ _ _ _ _) as [result|]; [|done].
  set (g1 := record _ (record _ (record _ (record _ (fresh_graph w1))))).
  set (g2 := record _ (record _ (record _ (record _ (fresh_graph w2))))).
  assert (Hm : collections (tag_model (adapted estimator result) g1)
               = collections (tag_model (adapted estimator result) g2))
    by (by apply collections_tag_model).
  destruct (subscript _ _) as [examples|]; [|done].
  assert (Hi : collections (tag_inputs examples r
                              (tag_model (adapted estimator result) g1))
               = collections (tag_inputs examples r
                                (tag_model (adapted estimator result) g2)))
    by (by apply collections_tag_inputs).
  destruct (items_of _) as [feature_items|]; [|done].
  assert (Hf : ∀ xs, collections
                 (foldl (tag_node encoding.FEATURES_COLLECTION)
                    (tag_inputs examples r
                       (tag_model (adapted estimator result) g1)) xs)
               = collections
                   (foldl (tag_node encoding.FEATURES_COLLECTION)
                      (tag_inputs examples r
                         (tag_model (adapted estimator result) g2)) xs))
    by (intros xs; by apply collections_tag_nodes).
  destruct (no_checkpoint _ _); cbn [fst snd]; (split; [done|]);
    [apply Hf|cbn [collections record_all]; apply Hf].
Qed.

(** X14.  In a run that returns, the session is opened exactly once, with
    the session configuration of the estimator or with soft placement
    allowed when it has none, and the graph is added exactly once, after
    that, under the single tag "eval", with the local init op of the
    model's scaffold when it has one and the default local init op
    otherwise. *)
Theorem session_and_meta_graph_choices
    (estimator : Estimator) (export_dir_base : string)
    (eval_input_receiver_fn : unit → outcome EvalInputReceiver)
    (checkpoint_path : option string) (w : world) (d : string)
    (r : EvalInputReceiver) (result : model_fn_result) (examples : tensor)
    (feature_items : list (string * tensor)) :
  fst (export_eval_savedmodel estimator export_dir_base eval_input_receiver_fn
                              checkpoint_path w) = Returned d →
  graph_built estimator eval_input_receiver_fn r result examples feature_items →
  let after := snd (export_eval_savedmodel estimator export_dir_base
                      eval_input_receiver_fn checkpoint_path w) in
  let chosen_config :=
    match session_config (config estimator) with
    | Some c => c
    | None => {| allow_soft_placement := true |}
    end in
  let chosen_op :=
    match attr_scaffold result with
    | Some {| local_init_op := Some op |} => op
    | _ => default_local_init_op scaffold_has_default_local_init_op
    end in
  ∃ before between later assets,
    trace after
      = trace w ++ before ++ SessionOpened chosen_config :: between
        ++ MetaGraphAdded [constants.EVAL_SAVED_MODEL_TAG] assets chosen_op
           :: later ∧
    ∀ e, e ∈ before ++ between ++ later →
         (∀ c, e ≠ SessionOpened c) ∧ (∀ tags a op, e ≠ MetaGraphAdded tags a op).
Proof.
  intros Hret Hb after chosen_config chosen_op.
  assert (Hc : no_checkpoint estimator checkpoint_path = false).
  { by destruct (export_returns_inv _ _ _ _ _ _ Hret)
      as (? & ? & ? & ? & _ & _ & _ & _ & Hc & _). }
  assert (Hop : chosen_local_init_op (adapted estimator result) = chosen_op).
  { unfold chosen_local_init_op. by rewrite adapted_scaffold. }
  unfold after.
  rewrite (returning_run_trace _ export_dir_base _ _ w _ _ _ _ Hb Hc). cbv zeta.
  rewrite save_calls_shape, Hop.
  set (temp := _get_temp_export_dir (get_timestamped_dir export_dir_base)).
  exists (graph_calls estimator r),
         [CheckpointRestored (saver_for_restore (adapted estimator result))
                             (checkpoint_used estimator checkpoint_path);
          DirCreated temp],
         (builder_writes temp
          ++ [Renamed temp (get_timestamped_dir export_dir_base); SessionClosed]),
         [].
  split.
  { rewrite <- ?app_assoc. cbn [app]. by rewrite <- ?app_assoc. }
  intros e [Hin|[Hin|[Hin|Hin]%elem_of_app]%elem_of_app]%elem_of_app.
  - unfold graph_calls in Hin.
    repeat (apply elem_of_cons in Hin as [->|Hin]; [by split|]).
    by apply elem_of_nil in Hin.
  - repeat (apply elem_of_cons in Hin as [->|Hin]; [by split|]).
    by apply elem_of_nil in Hin.
  - by apply builder_writes_inv in Hin as [q ->].
  - repeat (apply elem_of_cons in Hin as [->|Hin]; [by split|]).
    by apply elem_of_nil in Hin.
Qed.

(** X15.  When the mapping returned by [tf.parse_example] has no entry at
    [label_key], the receiver function built by
    [build_parsing_eval_input_receiver_fn] raises [KeyError label_key]
    instead of returning a receiver. *)
Theorem parsing_receiver_without_label_raises_key_error
    (feature_spec : list (string * feature_config)) (label_key : string)
    (parsed : list (string * tensor)) :
  parse_example (Placeholder "input_example_tensor") feature_spec
    = Returned parsed →
  label_key ∉ map fst parsed →
  build_parsing_eval_input_receiver_fn feature_spec label_key tt
  = Raised (KeyError label_key).
Proof.
  intros Hparsed Hnot. unfold build_parsing_eval_input_receiver_fn.
  by rewrite Hparsed, (dict_get_None label_key parsed Hnot).
Qed.

(** X16.  Exporting with the receiver function built by
    [build_parsing_eval_input_receiver_fn]: once [tf.parse_example] has
    returned a mapping that holds [label_key] and the model function has
    returned, the input example bucket holds the placeholder, the features
    buckets hold one entry per item of the parsed mapping, in the order in
    which that mapping iterates, the labels bucket holds the single label
    tensor under the default labels key, and that same tensor is also among
    the feature nodes. *)
Theorem export_with_parsing_receiver
    (estimator : Estimator) (export_dir_base : string)
    (feature_spec : list (string * feature_config)) (label_key : string)
    (checkpoint_path : option string) (w : world)
    (parsed : list (string * tensor)) (label : tensor)
    (result : model_fn_result) :
  let serialized := Placeholder "input_example_tensor" in
  parse_example serialized feature_spec = Returned parsed →
  dict_get label_key parsed = Some label →
  model_fn estimator
           (wrap_tensor_or_dict_of_tensors_in_identity (Dict parsed))
           (Tensor (Identity label))
           EVAL (config estimator) = Returned result →
  let after :=
    snd (export_eval_savedmodel estimator export_dir_base
           (build_parsing_eval_input_receiver_fn feature_spec label_key)
           checkpoint_path w) in
  collection after encoding.INPUT_EXAMPLE_COLLECTION
    = [encode_tensor_node serialized] ∧
  collection after (slash encoding.LABELS_COLLECTION encoding.KEY_SUFFIX)
    = [encode_key encoding.DEFAULT_LABELS_DICT_KEY] ∧
  collection after (slash encoding.LABELS_COLLECTION encoding.NODE_SUFFIX)
    = [encode_tensor_node label] ∧
  collection after (slash encoding.FEATURES_COLLECTION encoding.KEY_SUFFIX)
    = map (fun kv => encode_key (fst kv)) parsed ∧
  collection after (slash encoding.FEATURES_COLLECTION encoding.NODE_SUFFIX)
    = map (fun kv => encode_tensor_node (snd kv)) parsed ∧
  encode_tensor_node label
    ∈ collection after (slash encoding.FEATURES_COLLECTION encoding.NODE_SUFFIX).
Proof.
  intros serialized Hparsed Hget Hm after.
  set (r := {| features := Dict parsed;
               receiver_tensors := Dict [("examples", serialized)];
               labels := Tensor label |}).
  assert (Hr : build_parsing_eval_input_receiver_fn feature_spec label_key tt
               = Returned r).
  { unfold build_parsing_eval_input_receiver_fn. fold serialized.
    by rewrite Hparsed, Hget. }
  assert (Hs : subscript (receiver_tensors r) "examples" = Returned serialized)
    by done.
  assert (Hi : items_of (features r) = Returned parsed) by done.
  unfold after.
  rewrite !(collection_after_export _ _ _ _ _ r result serialized _ Hr Hm Hs Hi).
  repeat split; read_bucket; try done.
  apply list_elem_of_fmap. exists (label_key, label).
  split; [done|]. by apply dict_get_elem.
Qed.

(** X17.  Whenever the export function of the strategy has called the
    garbage collector of old exports, the export itself had returned: the
    collector was called once, with the base directory and the number of
    exports to keep, and by then the new export was in place under its
    final name, whatever the file system held before.  An export that
    raises never gets old exports collected. *)
Theorem export_fn_collects_only_a_finished_export
    (EVAL_SAVED_MODEL_EXPORT_NAME : string)
    (eval_input_receiver_fn : unit → outcome EvalInputReceiver)
    (exports_to_keep : option nat)
    (estimator : Estimator) (export_dir_base : string)
    (checkpoint_path : option string) (strip_default_attrs : bool) (h : host) :
  let strategy := make_export_strategy EVAL_SAVED_MODEL_EXPORT_NAME
                    eval_input_receiver_fn exports_to_keep in
  let out := strategy_export_fn strategy estimator export_dir_base
               checkpoint_path strip_default_attrs h in
  collected (snd out) ≠ collected h →
  ∃ d calls,
    fst (export_eval_savedmodel estimator export_dir_base
           eval_input_receiver_fn checkpoint_path (graph_world h))
      = Returned d ∧
    collected (snd out) = collected h ++ [(export_dir_base, exports_to_keep)] ∧
    trace (graph_world (snd out)) = trace (graph_world h) ++ calls ∧
    ∀ fs0 : gset string, d ∈ fs_after calls fs0.
Proof.
  cbv zeta. simpl. unfold export_fn.
  destruct (export_eval_savedmodel estimator export_dir_base
              eval_input_receiver_fn checkpoint_path (graph_world h))
    as [[d|e] w'] eqn:Hrun; [|done].
  intros _. simpl.
  assert (Hret : fst (export_eval_savedmodel estimator export_dir_base
                        eval_input_receiver_fn checkpoint_path (graph_world h))
                 = Returned d) by (by rewrite Hrun).
  destruct (export_returns_inv _ _ _ _ _ _ Hret)
    as (r & result & examples & feature_items & Hr & Hm & Hs & Hi & Hc & Hd).
  assert (Hb : graph_built estimator eval_input_receiver_fn r result examples
                 feature_items) by done.
  pose proof (returning_run_trace _ export_dir_base _ _ (graph_world h)
                _ _ _ _ Hb Hc) as Htrace.
  cbv zeta in Htrace. rewrite Hrun in Htrace. cbn [snd] in Htrace.
  rewrite <- Hd in Htrace.
  exists d, ((graph_calls estimator r
              ++ save_calls estimator (adapted estimator result)
                   (checkpoint_used estimator checkpoint_path)
                   (_get_temp_export_dir d) [])
             ++ [Renamed (_get_temp_export_dir d) d; SessionClosed]).
  split; [done|]. split; [done|]. split; [exact Htrace|].
  intros fs0. apply final_exists_after_rename.
  - apply run_writes_under_temp.
  - apply elem_of_app. right. rewrite save_calls_shape.
    apply elem_of_app. left.
    do 2 apply list_elem_of_further. apply list_elem_of_here.
Qed.

(** X18.  An export that does not get past the checkpoint lookup, because
    the receiver or the model function raises, "examples" is missing, the
    features are not a dict, or no checkpoint is given or found, raises
    without having made any call that creates, writes or renames
    anything: the file system is as it was. *)
Theorem early_failure_leaves_file_system_untouched
    (estimator : Estimator) (export_dir_base : string)
    (eval_input_receiver_fn : unit → outcome EvalInputReceiver)
    (checkpoint_path : option string) (w : world) :
  (∀ r result examples feature_items,
     ¬ graph_built estimator eval_input_receiver_fn r result examples
                   feature_items) ∨
  (py_not checkpoint_path = true ∧
   py_not (latest_checkpoint (model_dir estimator)) = true) →
  let run := export_eval_savedmodel estimator export_dir_base
               eval_input_receiver_fn checkpoint_path w in
  (∃ e, fst run = Raised e) ∧
  ∃ calls,
    trace (snd run) = trace w ++ calls ∧
    Forall (fun c => touches_fs c = false) calls ∧
    ∀ fs0 : gset string, fs_after calls fs0 = fs0.
Proof.
  intros Hearly run.
  assert ((∃ e, fst run = Raised e) ∧
          ∃ calls, trace (snd run) = trace w ++ calls ∧
                   Forall (fun c => touches_fs c = false) calls)
    as (Hraised & calls & Htrace & Hcalls).
  2: { split; [done|]. exists calls. split; [done|]. split; [done|].
       intros fs0. by apply fs_after_quiet. }
  unfold run. rewrite export_eval_savedmodel_run. unfold export_summary.
  destruct (eval_input_receiver_fn ()) as [r|] eqn:Hr; cbv zeta;
    [destruct (model_fn _ _ _ _ _) as [result|] eqn:Hm;
     [destruct (subscript _ _) as [examples|] eqn:Hs;
      [destruct (items_of _) as [feature_items|] eqn:Hi;
       [destruct (no_checkpoint _ _) eqn:Hc|]|]|]|];
    cbn [fst snd].
  2: { exfalso. destruct Hearly as [Hnot|[Hgiven Hlatest]].
       - by apply (Hnot r result examples feature_items).
       - unfold no_checkpoint in Hc. by rewrite Hgiven, Hlatest in Hc. }
  all: (split; [by eexists|]);
    rewrite ?trace_tag_nodes, ?trace_tag_inputs, ?trace_tag_model;
    unfold record, fresh_graph; cbn [trace];
    rewrite <- !app_assoc; (eexists; split; [done|]); by repeat constructor.
Qed.


End Extras.

(** ** Concrete runs for the further properties *)

Lemma temp_export_dir_of_joined_path_witness :
  PosixPath.normal_head "/foo/bar"
  ∧ PosixPath.has_sep "1530000000" = false
  ∧ _get_temp_export_dir "/foo/bar/1530000000" = "/foo/bar/temp-1530000000".
Proof.
  assert (H1 : PosixPath.normal_head "/foo/bar") by (right; reflexivity).
  assert (H2 : PosixPath.has_sep "1530000000" = false) by reflexivity.
  split; [exact H1|]. split; [exact H2|].
  exact (temp_export_dir_of_joined_path "/foo/bar" "1530000000" H1 H2).
Defined.

Lemma returned_export_lies_under_final_path_witness :
  fst (export_eval_savedmodel (env := Samples.sample_env)
         Samples.contrib_estimator "/tmp/exports" Samples.sample_receiver_fn
         None initial_world) = Returned "/tmp/exports/1530000000"
  ∧ ∃ calls,
      trace (snd (export_eval_savedmodel (env := Samples.sample_env)
                    Samples.contrib_estimator "/tmp/exports"
                    Samples.sample_receiver_fn None initial_world))
        = [] ++ calls ∧
      ∀ fs0 : gset string,
        "/tmp/exports/1530000000" ∈ fs_after calls fs0 ∧
        "/tmp/exports/1530000000/saved_model.pb" ∈ fs_after calls fs0 ∧
        (∀ f, f ∈ variables_files (Collaborators := Samples.sample_env) →
              slash "/tmp/exports/1530000000" f ∈ fs_after calls fs0) ∧
        ¬ visible (fs_after calls fs0) "/tmp/exports/temp-1530000000".
Proof.
  assert (H : fst (export_eval_savedmodel (env := Samples.sample_env)
                     Samples.contrib_estimator "/tmp/exports"
                     Samples.sample_receiver_fn None initial_world)
              = Returned "/tmp/exports/1530000000")
    by (vm_compute; reflexivity).
  split; [exact H|].
  exact (returned_export_lies_under_final_path (env := Samples.sample_env)
           _ _ _ _ _ _ H).
Defined.


Lemma receiver_error_aborts_export_witness :
  Samples.unlabelled_receiver_fn tt = Raised (KeyError "label")
  ∧ fst (export_eval_savedmodel (env := Samples.sample_env)
           Samples.core_estimator "/tmp/exports" Samples.unlabelled_receiver_fn
           None initial_world) = Raised (KeyError "label").
Proof.
  assert (H : Samples.unlabelled_receiver_fn tt = Raised (KeyError "label"))
    by reflexivity.
  split; [exact H|].
  exact (proj1 (receiver_error_aborts_export (env := Samples.sample_env)
                  Samples.core_estimator "/tmp/exports"
                  Samples.unlabelled_receiver_fn None initial_world _ H)).
Defined.

Lemma model_fn_error_aborts_export_witness :
  Samples.sample_receiver_fn tt = Returned Samples.sample_receiver
  ∧ fst (export_eval_savedmodel (env := Samples.sample_env)
           Samples.failing_estimator "/tmp/exports" Samples.sample_receiver_fn
           None initial_world) = Raised (UserError "shape mismatch").
Proof.
  assert (H1 : Samples.sample_receiver_fn tt = Returned Samples.sample_receiver)
    by reflexivity.
  assert (H2 : model_fn Samples.failing_estimator
                 (wrap_tensor_or_dict_of_tensors_in_identity
                    (features Samples.sample_receiver))
                 (wrap_tensor_or_dict_of_tensors_in_identity
                    (labels Samples.sample_receiver))
                 EVAL (config Samples.failing_estimator)
               = Raised (UserError "shape mismatch")) by reflexivity.
  split; [exact H1|].
  exact (proj1 (model_fn_error_aborts_export (env := Samples.sample_env)
                  Samples.failing_estimator "/tmp/exports"
                  Samples.sample_receiver_fn None initial_world _ _ H1 H2)).
Defined.

Lemma missing_examples_key_raises_key_error_witness :
  dict_get "examples" [("inputs", Samples.serialized)] = None
  ∧ fst (export_eval_savedmodel (env := Samples.sample_env)
           Samples.core_estimator "/tmp/exports"
           (fun _ => Returned Samples.no_examples_receiver)
           None initial_world) = Raised (KeyError "examples").
Proof.
  assert (H : dict_get "examples" [("inputs", Samples.serialized)] = None)
    by reflexivity.
  split; [exact H|].
  exact (proj1 (missing_examples_key_raises_key_error (env := Samples.sample_env)
                  Samples.core_estimator "/tmp/exports"
                  (fun _ => Returned Samples.no_examples_receiver)
                  None initial_world Samples.no_examples_receiver
                  Samples.bare_result _ eq_refl eq_refl eq_refl H)).
Defined.

Lemma bare_tensor_features_raise_attribute_error_witness :
  features Samples.tensor_features_receiver = Tensor (GraphNode "image")
  ∧ fst (export_eval_savedmodel (env := Samples.sample_env)
           Samples.core_estimator "/tmp/exports"
           (fun _ => Returned Samples.tensor_features_receiver)
           None initial_world)
    = Raised (AttributeError "'Tensor' object has no attribute 'items'").
Proof.
  assert (H : features Samples.tensor_features_receiver
              = Tensor (GraphNode "image")) by reflexivity.
  split; [exact H|].
  exact (proj1 (bare_tensor_features_raise_attribute_error
                  (env := Samples.sample_env)
                  Samples.core_estimator "/tmp/exports"
                  (fun _ => Returned Samples.tensor_features_receiver)
                  None initial_world Samples.tensor_features_receiver
                  Samples.bare_result Samples.serialized _
                  eq_refl H eq_refl eq_refl)).
Defined.

Lemma restore_uses_given_or_latest_checkpoint_witness :
  fst (export_eval_savedmodel (env := Samples.sample_env)
         Samples.untrained_estimator "/tmp/exports" Samples.sample_receiver_fn
         (Some "/ckpt/model.ckpt-7") initial_world)
  = Returned "/tmp/exports/1530000000"
  ∧ graph_built Samples.untrained_estimator Samples.sample_receiver_fn
                Samples.sample_receiver Samples.bare_result
                Samples.serialized Samples.sample_features
  ∧ "/ckpt/model.ckpt-7" ≠ ""
  ∧ ∃ before later,
      trace (snd (export_eval_savedmodel (env := Samples.sample_env)
                    Samples.untrained_estimator "/tmp/exports"
                    Samples.sample_receiver_fn (Some "/ckpt/model.ckpt-7")
                    initial_world))
        = [] ++ before
          ++ CheckpointRestored (NewSaver true) "/ckpt/model.ckpt-7" :: later ∧
      ∀ s p, (CheckpointRestored s p ∉ before) ∧ (CheckpointRestored s p ∉ later).
Proof.
  assert (H0 : fst (export_eval_savedmodel (env := Samples.sample_env)
                      Samples.untrained_estimator "/tmp/exports"
                      Samples.sample_receiver_fn (Some "/ckpt/model.ckpt-7")
                      initial_world)
               = Returned "/tmp/exports/1530000000")
    by (vm_compute; reflexivity).
  assert (H1 : graph_built Samples.untrained_estimator Samples.sample_receiver_fn
                 Samples.sample_receiver Samples.bare_result
                 Samples.serialized Samples.sample_features)
    by (repeat split; reflexivity).
  assert (H2 : "/ckpt/model.ckpt-7" ≠ "") by discriminate.
  split; [exact H0|]. split; [exact H1|]. split; [exact H2|].
  exact (restore_uses_given_or_latest_checkpoint
           (env := Samples.sample_env)
           Samples.untrained_estimator "/tmp/exports"
           Samples.sample_receiver_fn (Some "/ckpt/model.ckpt-7")
           initial_world _ _ _ _ _ "/ckpt/model.ckpt-7" H0 H1 H2
           (or_introl eq_refl)).
Defined.

Lemma export_returns_only_if_witness :
  fst (export_eval_savedmodel (env := Samples.sample_env)
         Samples.core_estimator "/tmp/exports" Samples.sample_receiver_fn
         None initial_world) = Returned "/tmp/exports/1530000000"
  ∧ (py_not None = false ∨
     py_not (latest_checkpoint (Collaborators := Samples.sample_env)
               (model_dir Samples.core_estimator)) = false).
Proof.
  assert (H : fst (export_eval_savedmodel (env := Samples.sample_env)
                     Samples.core_estimator "/tmp/exports"
                     Samples.sample_receiver_fn None initial_world)
              = Returned "/tmp/exports/1530000000")
    by (vm_compute; reflexivity).
  split; [exact H|].
  exact (proj1 (proj2 (export_returns_only_if (env := Samples.sample_env)
                         _ _ _ _ _ _ H))).
Defined.

Lemma version_and_input_example_registered_once_witness :
  graph_built Samples.core_estimator Samples.sample_receiver_fn
              Samples.sample_receiver Samples.bare_result
              Samples.serialized Samples.sample_features
  ∧ collection
      (snd (export_eval_savedmodel (env := Samples.sample_env)
              Samples.core_estimator "/tmp/exports" Samples.sample_receiver_fn
              None initial_world))
      encoding.TFMA_VERSION_COLLECTION
    = [Samples.Text "0.6.0"].
Proof.
  assert (H : graph_built Samples.core_estimator Samples.sample_receiver_fn
                Samples.sample_receiver Samples.bare_result
                Samples.serialized Samples.sample_features)
    by (repeat split; reflexivity).
  split; [exact H|].
  exact (proj1 (version_and_input_example_registered_once
                  (env := Samples.sample_env)
                  Samples.core_estimator "/tmp/exports"
                  Samples.sample_receiver_fn None initial_world _ _ _ _ H)).
Defined.

Lemma session_and_meta_graph_choices_witness :
  fst (export_eval_savedmodel (env := Samples.sample_env)
         Samples.contrib_estimator "/tmp/exports" Samples.sample_receiver_fn
         None initial_world) = Returned "/tmp/exports/1530000000"
  ∧ graph_built Samples.contrib_estimator Samples.sample_receiver_fn
                Samples.sample_receiver (SomeModelFnOps Samples.contrib_ops)
                Samples.serialized Samples.sample_features
  ∧ ∃ before between later assets,
      trace (snd (export_eval_savedmodel (env := Samples.sample_env)
                    Samples.contrib_estimator "/tmp/exports"
                    Samples.sample_receiver_fn None initial_world))
        = [] ++ before
          ++ SessionOpened {| allow_soft_placement := true |} :: between
          ++ MetaGraphAdded [constants.EVAL_SAVED_MODEL_TAG] assets
                            (default_local_init_op true) :: later ∧
      ∀ e, e ∈ before ++ between ++ later →
           (∀ c, e ≠ SessionOpened c) ∧
           (∀ tags a op, e ≠ MetaGraphAdded tags a op).
Proof.
  assert (H0 : fst (export_eval_savedmodel (env := Samples.sample_env)
                      Samples.contrib_estimator "/tmp/exports"
                      Samples.sample_receiver_fn None initial_world)
               = Returned "/tmp/exports/1530000000")
    by (vm_compute; reflexivity).
  assert (H1 : graph_built Samples.contrib_estimator Samples.sample_receiver_fn
                 Samples.sample_receiver (SomeModelFnOps Samples.contrib_ops)
                 Samples.serialized Samples.sample_features)
    by (repeat split; reflexivity).
  split; [exact H0|]. split; [exact H1|].
  exact (session_and_meta_graph_choices (env := Samples.sample_env)
           Samples.contrib_estimator "/tmp/exports"
           Samples.sample_receiver_fn None initial_world _ _ _ _ _ H0 H1).
Defined.

Lemma parsing_receiver_without_label_raises_key_error_witness :
  parse_example (Collaborators := Samples.sample_env)
    (Placeholder "input_example_tensor") [("f1", FixedLenFeature)]
  = Returned [("f1", ParsedFeature (Placeholder "input_example_tensor") "f1")]
  ∧ ("label" ∉ map fst [("f1", ParsedFeature
                                 (Placeholder "input_example_tensor") "f1")])
  ∧ Samples.unlabelled_receiver_fn tt = Raised (KeyError "label").
Proof.
  assert (H0 : parse_example (Collaborators := Samples.sample_env)
                 (Placeholder "input_example_tensor") [("f1", FixedLenFeature)]
               = Returned [("f1", ParsedFeature
                                    (Placeholder "input_example_tensor") "f1")])
    by reflexivity.
  assert (H : "label" ∉ map fst [("f1", ParsedFeature
                                          (Placeholder "input_example_tensor")
                                          "f1")]).
  { simpl. intros Hin. apply elem_of_cons in Hin as [Hin|Hin]; [discriminate Hin|].
    by apply elem_of_nil in Hin. }
  split; [exact H0|]. split; [exact H|].
  exact (parsing_receiver_without_label_raises_key_error
           (env := Samples.sample_env)
           [("f1", FixedLenFeature)] "label" _ H0 H).
Defined.

Lemma export_with_parsing_receiver_witness :
  parse_example (Collaborators := Samples.sample_env)
    Samples.serialized Samples.sample_feature_spec
  = Returned Samples.sample_features
  ∧ dict_get "label" Samples.sample_features
    = Some (ParsedFeature Samples.serialized "label")
  ∧ collection
      (snd (export_eval_savedmodel (env := Samples.sample_env)
              Samples.core_estimator "/tmp/exports"
              (build_parsing_eval_input_receiver_fn (env := Samples.sample_env)
                 Samples.sample_feature_spec "label")
              None initial_world))
      (slash encoding.LABELS_COLLECTION encoding.NODE_SUFFIX)
    = [Samples.EncodedNode (ParsedFeature Samples.serialized "label")].
Proof.
  assert (H0 : parse_example (Collaborators := Samples.sample_env)
                 Samples.serialized Samples.sample_feature_spec
               = Returned Samples.sample_features) by reflexivity.
  assert (H1 : dict_get "label" Samples.sample_features
               = Some (ParsedFeature Samples.serialized "label")) by reflexivity.
  split; [exact H0|]. split; [exact H1|].
  exact (proj1 (proj2 (proj2
    (export_with_parsing_receiver (env := Samples.sample_env)
       Samples.core_estimator "/tmp/exports" Samples.sample_feature_spec
       "label" None initial_world Samples.sample_features
       (ParsedFeature Samples.serialized "label") Samples.bare_result
       H0 H1 eq_refl)))).
Defined.

Lemma export_fn_collects_only_a_finished_export_witness :
  collected
    (snd (strategy_export_fn
            (make_export_strategy (env := Samples.sample_env)
               "eval_saved_model" Samples.sample_receiver_fn (Some 5))
            Samples.core_estimator "/tmp/exports" None false
            Samples.initial_host))
  ≠ collected Samples.initial_host
  ∧ ∃ d, fst (export_eval_savedmodel (env := Samples.sample_env)
                Samples.core_estimator "/tmp/exports"
                Samples.sample_receiver_fn None
                (graph_world Samples.initial_host)) = Returned d.
Proof.
  assert (H : collected
                (snd (strategy_export_fn
                        (make_export_strategy (env := Samples.sample_env)
                           "eval_saved_model" Samples.sample_receiver_fn
                           (Some 5))
                        Samples.core_estimator "/tmp/exports" None false
                        Samples.initial_host))
              ≠ collected Samples.initial_host)
    by (vm_compute; discriminate).
  split; [exact H|].
  destruct (export_fn_collects_only_a_finished_export
              (env := Samples.sample_env)
              "eval_saved_model" Samples.sample_receiver_fn (Some 5)
              Samples.core_estimator "/tmp/exports" None false
              Samples.initial_host H) as (d & calls & Hd & _).
  exists d. exact Hd.
Defined.

Lemma early_failure_leaves_file_system_untouched_witness :
  (py_not None = true ∧
   py_not (latest_checkpoint (Collaborators := Samples.sample_env)
             (model_dir Samples.untrained_estimator)) = true)
  ∧ (∃ e, fst (export_eval_savedmodel (env := Samples.sample_env)
                 Samples.untrained_estimator "/tmp/exports"
                 Samples.sample_receiver_fn None initial_world) = Raised e)
  ∧ ∃ calls,
      trace (snd (export_eval_savedmodel (env := Samples.sample_env)
                    Samples.untrained_estimator "/tmp/exports"
                    Samples.sample_receiver_fn None initial_world))
        = [] ++ calls ∧
      Forall (fun c => touches_fs c = false) calls ∧
      ∀ fs0 : gset string, fs_after calls fs0 = fs0.
Proof.
  assert (H : py_not None = true ∧
              py_not (latest_checkpoint (Collaborators := Samples.sample_env)
                        (model_dir Samples.untrained_estimator)) = true)
    by (split; reflexivity).
  split; [exact H|].
  exact (early_failure_leaves_file_system_untouched (env := Samples.sample_env)
           Samples.untrained_estimator "/tmp/exports"
           Samples.sample_receiver_fn None initial_world (or_intror H)).
Defined.
